(** * pylibfreenect2: the Cython wrapper [libfreenect2.pyx]

    A shallow embedding of the extension classes of
    [src/pylibfreenect2/libfreenect2.pyx] ([Frame], [FrameMap],
    [SyncMultiFrameListener], [Registration], [CpuPacketPipeline],
    [Freenect2Device], [Freenect2]) together with the statements that the
    ownership and lifetime rules of the wrapper satisfy.

    The wrapper is glue around the C++ library libfreenect2.  The C-level
    memory the wrapper itself touches (objects it allocates with [new],
    frees with [del] and whose fields it reads) is modelled by [World];
    what the library does behind a forwarded call is a parameter
    ([Libfreenect2]). *)

From Stdlib Require Import ZArith List Bool Ascii String Lia.
From stdpp Require Import base gmap list strings.

Open Scope Z_scope.

(** ** Python values and exceptions *)

(** Members of the [pylibfreenect2.FrameType] IntEnum. *)
Inductive FrameType := Color | Ir | Depth.

(** numpy scalar types, as passed to [Frame.astype]. *)
Inductive np_type := np_uint8 | np_float32 | np_other (name : string).

(** The exceptions the module can raise. *)
Inductive exn :=
| ValueError | KeyError | AssertionError | OverflowError | TypeError.

(** Outcome of a call: a value, a Python exception, or [Fault] when the C
    code dereferences a pointer that designates no live object. *)
Inductive res (A : Type) :=
| Ret (a : A)
| Raise (e : exn)
| Fault.
Arguments Ret {A} a.
Arguments Raise {A} e.
Arguments Fault {A}.

(** The Python objects the public methods are called with.  [PyNumber]
    is a number that is not an [int] (a float, a numpy scalar), given by
    what its [__int__] returns: the value truncated toward zero, or the
    exception it raises (a float that is infinite or not a number).
    [PyOther] is an object of any other type, without [__int__]. *)
Inductive pyobj :=
| PyNone
| PyInt (z : Z)
| PyEnum (m : FrameType)
| PyStr (s : string)
| PyBytes (s : string)
| PyType (t : np_type)
| PyNumber (as_int : res Z)
| PyOther (type_name : string).

Definition is_Ret {A} (r : res A) : bool :=
  match r with Ret _ => true | _ => false end.

Definition raises {A} (r : res A) : bool :=
  match r with Raise _ => true | _ => false end.

(** ** C-level memory *)

Definition addr := N.
Definition NULL : addr := 0%N.

(** The fields of a [libfreenect2::Frame] the wrapper reads. *)
Record NativeFrame := {
  width : N;
  height : N;
  bytes_per_pixel : N;
  data : addr
}.

(** Library entry points the wrapper forwards to, with the pointers it
    passes. *)
Inductive NativeCall :=
| Call_getSerialNumber (dev : addr)
| Call_getFirmwareVersion (dev : addr)
| Call_getColorCameraParams (dev : addr)
| Call_getIrCameraParams (dev : addr)
| Call_setColorFrameListener (dev listener : addr)
| Call_setIrAndDepthFrameListener (dev listener : addr)
| Call_start (dev : addr)
| Call_stop (dev : addr)
| Call_close (dev : addr)
| Call_Registration_apply (reg rgb depth undistorted registered : addr)
    (enable_filter : bool) (bigdepth : addr)
| Call_release (listener : addr)
| Call_openDevice_idx (fn2 : addr) (idx : Z) (pipeline : option addr)
| Call_openDevice_serial (fn2 : addr) (serial : string) (pipeline : option addr)
| Call_openDefaultDevice (fn2 : addr) (pipeline : option addr).

Record World := {
  frames : gmap N NativeFrame;  (* live libfreenect2::Frame objects *)
  brk : addr;                   (* highest address handed out so far *)
  deleted : list addr;          (* operands of the module's [del], newest first *)
  trace : list NativeCall       (* library calls made, newest first *)
}.

Definition World0 : World :=
  {| frames := ∅; brk := 0%N; deleted := []; trace := [] |}.

(** ** A state and exception monad *)

Definition M (S A : Type) := S -> res A * S.

Definition ret {S A} (a : A) : M S A := fun s => (Ret a, s).
Definition raise {S A} (e : exn) : M S A := fun s => (Raise e, s).

Definition bind {S A B} (c : M S A) (k : A -> M S B) : M S B :=
  fun s =>
    match c s with
    | (Ret a, s') => k a s'
    | (Raise e, s') => (Raise e, s')
    | (Fault, s') => (Fault, s')
    end.

Notation "'let*' x := c 'in' k" := (bind c (fun x => k))
  (at level 10, x name, c at level 100, k at level 200, only parsing).

Definition modify {S} (f : S -> S) : M S unit := fun s => (Ret tt, f s).

(** A pure outcome threaded through the state unchanged. *)
Definition lift_res {S A} (r : res A) : M S A := fun s => (r, s).

(** Python's [assert]. *)
Definition py_assert {S} (b : bool) : M S unit :=
  if b then ret tt else raise AssertionError.

(** Run a computation on the [World] component of a larger state. *)
Definition on_world {S A} (c : M World A) : M (S * World) A :=
  fun '(s, w) => let '(r, w') := c w in (r, (s, w')).

(** Run a computation on the object component of a larger state. *)
Definition on_self {S A} (c : M S A) : M (S * World) A :=
  fun '(s, w) => let '(r, s') := c s in (r, (s', w)).

(** *** Allocation *)

(** C++ [new]: a fresh non-null address. *)
Definition alloc : M World addr :=
  fun w =>
    let p := N.succ (brk w) in
    (Ret p, {| frames := frames w; brk := p;
               deleted := deleted w; trace := trace w |}).

(** C++ [del p]. *)
Definition del (p : addr) : M World unit :=
  modify (fun w => {| frames := delete p (frames w); brk := brk w;
                      deleted := p :: deleted w; trace := trace w |}).

(** A forwarded library call, recorded in the trace. *)
Definition call (c : NativeCall) : M World unit :=
  modify (fun w => {| frames := frames w; brk := brk w;
                      deleted := deleted w; trace := c :: trace w |}).

(** [new libfreenect2.Frame(width, height, bytes_per_pixel, NULL)]: the
    constructor allocates the pixel buffer itself. *)
Definition new_Frame (w h b : N) : M World addr :=
  let* p := alloc in
  let* d := alloc in
  let* _ := modify (fun W =>
         {| frames := <[p := {| width := w; height := h;
                                bytes_per_pixel := b; data := d |}]> (frames W);
            brk := brk W; deleted := deleted W; trace := trace W |}) in
  ret p.

(** Reading a field through [self.ptr]. *)
Definition deref (p : addr) : M World NativeFrame :=
  fun w => match frames w !! p with
           | Some nf => (Ret nf, w)
           | None => (Fault, w)
           end.

(** ** C integer conversions *)

Definition INT_MIN : Z := - 2 ^ 31.
Definition INT_MAX : Z := 2 ^ 31 - 1.

(** Conversion of a Python object to a C [int] (typed argument or
    assignment to a [cdef int]): an [int] is taken as it is, another
    number through its [__int__], and the value must fit. *)
Definition as_c_int_of (value : FrameType -> Z) (o : pyobj) : res Z :=
  let conv z := if (INT_MIN <=? z) && (z <=? INT_MAX) then Ret z
                else Raise OverflowError in
  match o with
  | PyInt z => conv z
  | PyEnum m => conv (value m)
  | PyNumber (Ret z) => conv z
  | PyNumber (Raise e) => Raise e
  | PyNumber Fault => Fault
  | _ => Raise TypeError
  end.

(** [<np.npy_intp> n] for a [size_t] [n]: reinterpretation as a signed
    64-bit integer. *)
Definition npy_intp_of (n : N) : Z :=
  let z := Z.of_N n mod 2 ^ 64 in
  if z <? 2 ^ 63 then z else z - 2 ^ 64.

(** ** What the module is compiled against

    [FrameType] is imported from the package's [__init__]; the C
    declarations come from [libfreenect2.pxd]; the methods called through
    the pointers are libfreenect2's.  None of these is among the sources,
    so they are parameters of the development. *)

Inductive LibFreenect2FrameType :=
| libfreenect2_Color | libfreenect2_Ir | libfreenect2_Depth.

Global Instance LibFreenect2FrameType_eq_dec : EqDecision LibFreenect2FrameType.
Proof. solve_decision. Defined.

Global Instance LibFreenect2FrameType_countable : Countable LibFreenect2FrameType.
Proof.
  refine (inj_countable'
            (fun t => match t with
                      | libfreenect2_Color => 0%nat
                      | libfreenect2_Ir => 1%nat
                      | libfreenect2_Depth => 2%nat
                      end)
            (fun n => match n with
                      | O => libfreenect2_Color
                      | S O => libfreenect2_Ir
                      | _ => libfreenect2_Depth
                      end) _).
  by intros [].
Defined.

Class Libfreenect2 := {
  (** integer value of each member of the [FrameType] IntEnum *)
  IntEnum_value : FrameType -> Z;
  (** conversion of a Python object to the C type of the dimensions of
      the [libfreenect2::Frame] constructor *)
  Frame_dim : pyobj -> res N;
  (** conversion of a Python object to a C++ [std::string] *)
  as_std_string : pyobj -> res string;
  (** [SyncMultiFrameListener::release(FrameMap&)]: what it leaves in the
      C++ map and which frames stay allocated *)
  lib_release : addr -> gmap LibFreenect2FrameType addr -> gmap N NativeFrame ->
                gmap LibFreenect2FrameType addr * gmap N NativeFrame;
  (** [Registration::apply]: what it writes into the frames it is handed *)
  lib_apply : NativeCall -> gmap N NativeFrame -> gmap N NativeFrame;
  (** device pointer returned by the three [open] entry points *)
  lib_open : NativeCall -> addr
}.

(** Conversion to a C [int], an enum member through its value. *)
Definition as_c_int `{L : Libfreenect2} : pyobj -> res Z :=
  as_c_int_of IntEnum_value.

(** The library acting on the frames of the world. *)
Definition on_frames (f : gmap N NativeFrame -> gmap N NativeFrame) : M World unit :=
  modify (fun w => {| frames := f (frames w); brk := brk w;
                      deleted := deleted w; trace := trace w |}).

(** Conversion of a Python object to a C [unsigned int]: as for [int],
    a number that is not an [int] goes through its [__int__] (a float is
    truncated). *)
Definition UINT_MAX : Z := 2 ^ 32 - 1.

Definition as_c_uint `{L : Libfreenect2} (o : pyobj) : res Z :=
  let conv z := if (0 <=? z) && (z <=? UINT_MAX) then Ret z
                else Raise OverflowError in
  match o with
  | PyInt z => conv z
  | PyEnum m => conv (IntEnum_value m)
  | PyNumber (Ret z) => conv z
  | PyNumber (Raise e) => Raise e
  | PyNumber Fault => Fault
  | _ => Raise TypeError
  end.

(** [SyncMultiFrameListener::waitForNewFrame(FrameMap&)] once it returns:
    what it puts into the C++ map and which frames it makes live. *)
Class ListenerLibrary := {
  lib_waitForNewFrame :
    addr -> gmap LibFreenect2FrameType addr -> gmap N NativeFrame ->
    gmap LibFreenect2FrameType addr * gmap N NativeFrame
}.

(** ** numpy array views *)

Inductive npy_typenum := NPY_UINT8 | NPY_FLOAT32.

Record ndarray := {
  nd : nat;
  dims : list Z;
  typenum : npy_typenum;
  buffer : addr
}.

Definition NPY_MAX_INTP : Z := 2 ^ 63 - 1.

Definition itemsize (ty : npy_typenum) : Z :=
  match ty with NPY_UINT8 => 1 | NPY_FLOAT32 => 4 end.

(** The size check numpy makes on the dimensions of a new array, from
    the item size on: an empty dimension is passed over, a negative one
    is refused, and so is one with which the size in bytes no longer
    fits [npy_intp].  [None] is a refusal. *)
Fixpoint array_nbytes (nbytes : Z) (shape : list Z) : option Z :=
  match shape with
  | [] => Some nbytes
  | d :: rest =>
      if d =? 0 then array_nbytes nbytes rest
      else if d <? 0 then None
      else if NPY_MAX_INTP <? nbytes * d then None
      else array_nbytes (nbytes * d) rest
  end.

(** [np.PyArray_SimpleNewFromData(nd, dims, typenum, data)]: a view over
    [data], no copy; numpy raises [ValueError] for dimensions that are
    negative or too big.  [data] is the buffer of a native frame, which
    is never null. *)
Definition PyArray_SimpleNewFromData {S} (n : nat) (shape : list Z)
    (ty : npy_typenum) (d : addr) : M S ndarray :=
  match array_nbytes (itemsize ty) shape with
  | Some _ => ret {| nd := n; dims := shape; typenum := ty; buffer := d |}
  | None => raise ValueError
  end.

(** [o == np.uint8] and the like: equality with a numpy scalar type. *)
Definition np_type_eqb (a b : np_type) : bool :=
  match a, b with
  | np_uint8, np_uint8 => true
  | np_float32, np_float32 => true
  | np_other x, np_other y => bool_decide (x = y)
  | _, _ => false
  end.

Definition py_eq_type (o : pyobj) (t : np_type) : bool :=
  match o with
  | PyType t' => np_type_eqb t' t
  | _ => false
  end.

Definition is_None (o : pyobj) : bool :=
  match o with PyNone => true | _ => false end.

(** [isinstance(o, int)]; an IntEnum member is an [int]. *)
Definition isinstance_int (o : pyobj) : bool :=
  match o with PyInt _ | PyEnum _ => true | _ => false end.

Definition isinstance_FrameType (o : pyobj) : bool :=
  match o with PyEnum _ => true | _ => false end.

Definition isinstance_str (o : pyobj) : bool :=
  match o with PyStr _ => true | _ => false end.

Definition isinstance_bytes (o : pyobj) : bool :=
  match o with PyBytes _ => true | _ => false end.

(** ** class Frame *)

Module Frame.

Record t := {
  ptr : addr;
  take_ownership : bool;
  frame_type : Z
}.

Definition set_ptr (p : addr) (self : t) : t :=
  {| ptr := p; take_ownership := take_ownership self;
     frame_type := frame_type self |}.
Definition set_take_ownership (b : bool) (self : t) : t :=
  {| ptr := ptr self; take_ownership := b; frame_type := frame_type self |}.
Definition set_frame_type (n : Z) (self : t) : t :=
  {| ptr := ptr self; take_ownership := take_ownership self; frame_type := n |}.

(** The object as [tp_new] hands it to [__cinit__]: C fields zeroed. *)
Definition blank : t :=
  {| ptr := NULL; take_ownership := false; frame_type := 0 |}.

Section Methods.
Context `{L : Libfreenect2}.

Definition __cinit__ (width height bytes_per_pixel : pyobj) (frame_type : Z)
  : M (t * World) unit :=
  let '(w, h, b) := (width, height, bytes_per_pixel) in
  let all_none := is_None w && is_None h && is_None b in
  let all_not_none :=
    negb (is_None w) && negb (is_None h) && negb (is_None b) in
  let* _ := py_assert (all_none || all_not_none) in
  let* _ := on_self (modify (set_frame_type frame_type)) in
  if all_not_none then
    let* _ := on_self (modify (set_take_ownership true)) in
    let* cw := lift_res (Frame_dim width) in
    let* ch := lift_res (Frame_dim height) in
    let* cb := lift_res (Frame_dim bytes_per_pixel) in
    let* p := on_world (new_Frame cw ch cb) in
    on_self (modify (set_ptr p))
  else
    on_self (modify (set_take_ownership false)).

Definition __dealloc__ (self : t) : M World unit :=
  if take_ownership self && negb (ptr self =? NULL)%N
  then del (ptr self)
  else ret tt.

(** The call [Frame(width, height, bytes_per_pixel, frame_type)]: the
    typed argument is converted, [__cinit__] runs on a blank object, and
    an object whose [__cinit__] raised is deallocated at once. *)
Definition new (width height bytes_per_pixel frame_type : pyobj)
  : M World t :=
  let* ft := lift_res (as_c_int frame_type) in
  fun W =>
    match __cinit__ width height bytes_per_pixel ft (blank, W) with
    | (Ret _, (self, W')) => (Ret self, W')
    | (Raise e, (self, W')) => (Raise e, snd (__dealloc__ self W'))
    | (Fault, (self, W')) => (Fault, W')
    end.

Definition get_width (self : t) : M World N :=
  let* nf := deref (ptr self) in ret (width nf).

Definition get_height (self : t) : M World N :=
  let* nf := deref (ptr self) in ret (height nf).

Definition get_bytes_per_pixel (self : t) : M World N :=
  let* nf := deref (ptr self) in ret (bytes_per_pixel nf).

Definition __uint8_data (self : t) : M World ndarray :=
  let* nf := deref (ptr self) in
  let shape := [npy_intp_of (height nf); npy_intp_of (width nf); 4] in
  PyArray_SimpleNewFromData 3 shape NPY_UINT8 (data nf).

Definition __float32_data (self : t) : M World ndarray :=
  let* nf := deref (ptr self) in
  let shape := [npy_intp_of (height nf); npy_intp_of (width nf)] in
  PyArray_SimpleNewFromData 2 shape NPY_FLOAT32 (data nf).

Definition astype (self : t) (data_type : pyobj) : M World ndarray :=
  if negb (py_eq_type data_type np_uint8)
     && negb (py_eq_type data_type np_float32)
  then raise ValueError
  else if py_eq_type data_type np_uint8
  then __uint8_data self
  else __float32_data self.

Definition asarray (self : t) : M World ndarray :=
  if frame_type self <? 0 then raise ValueError
  else if frame_type self =? IntEnum_value Color
  then astype self (PyType np_uint8)
  else if (frame_type self =? IntEnum_value Ir)
          || (frame_type self =? IntEnum_value Depth)
  then astype self (PyType np_float32)
  else (* assert False *) raise AssertionError.

End Methods.
End Frame.

(** ** Channel keys *)

(** [str.lower] on the ASCII range; the three channel names are ASCII and
    no other code point lowercases to one of their letters. *)
Definition lower_ascii (c : ascii) : ascii :=
  let n := nat_of_ascii c in
  if (65 <=? n)%nat && (n <=? 90)%nat then ascii_of_nat (n + 32) else c.

Fixpoint lower (s : string) : string :=
  match s with
  | EmptyString => EmptyString
  | String c s' => String (lower_ascii c) (lower s')
  end.

Section FrameTypes.
Context `{L : Libfreenect2}.

Definition intenum_to_frame_type (n : Z) : res LibFreenect2FrameType :=
  if n =? IntEnum_value Color then Ret libfreenect2_Color
  else if n =? IntEnum_value Ir then Ret libfreenect2_Ir
  else if n =? IntEnum_value Depth then Ret libfreenect2_Depth
  else Raise ValueError.

Definition str_to_int_frame_type (s : string) : res pyobj :=
  let s := lower s in
  if String.eqb s "color" then Ret (PyEnum Color)
  else if String.eqb s "ir" then Ret (PyEnum Ir)
  else if String.eqb s "depth" then Ret (PyEnum Depth)
  else Raise ValueError.

(** [intenum_to_frame_type(str_to_int_frame_type(s))]; the enum member is
    converted to the C [int] parameter. *)
Definition str_to_frame_type (s : string) : res LibFreenect2FrameType :=
  match str_to_int_frame_type s with
  | Ret o =>
      match as_c_int o with
      | Ret n => intenum_to_frame_type n
      | Raise e => Raise e
      | Fault => Fault
      end
  | Raise e => Raise e
  | Fault => Fault
  end.

End FrameTypes.

(** ** class FrameMap *)

Module FrameMap.

Record t := {
  internal_frame_map : gmap LibFreenect2FrameType addr;
  take_ownership : bool
}.

Definition set_internal_frame_map (m : gmap LibFreenect2FrameType addr)
    (self : t) : t :=
  {| internal_frame_map := m; take_ownership := take_ownership self |}.

Definition __cinit__ (take_ownership : bool) : t :=
  {| internal_frame_map := ∅; take_ownership := take_ownership |}.

(** C++ [std::map::operator[]]: a missing key is inserted with a
    value-initialised (null) pointer. *)
Definition map_index (k : LibFreenect2FrameType) : M t addr :=
  fun self =>
    match internal_frame_map self !! k with
    | Some p => (Ret p, self)
    | None =>
        (Ret NULL,
         set_internal_frame_map (<[k := NULL]> (internal_frame_map self)) self)
    end.

(** Keys of a [std::map<Frame::Type, Frame*>] in iteration order. *)
Definition key_order : list LibFreenect2FrameType :=
  [libfreenect2_Color; libfreenect2_Ir; libfreenect2_Depth].

Definition __dealloc__ (self : t) : M World unit :=
  if take_ownership self then
    foldr (fun k rest =>
             match internal_frame_map self !! k with
             | Some p =>
                 if negb (p =? NULL)%N
                 then let* _ := del p in rest
                 else rest
             | None => rest
             end)
          (ret tt) key_order
  else ret tt.

Section Methods.
Context `{L : Libfreenect2}.

(** The two branches that normalise the key: the C++ tag that indexes the
    map and the Python object later passed as [frame_type]. *)
Definition normalise (key : pyobj)
  : res (LibFreenect2FrameType * pyobj) :=
  if isinstance_int key || isinstance_FrameType key then
    match as_c_int key with
    | Ret n =>
        match intenum_to_frame_type n with
        | Ret ft => Ret (ft, key)
        | Raise e => Raise e
        | Fault => Fault
        end
    | Raise e => Raise e
    | Fault => Fault
    end
  else
    match key with
    | PyStr s =>
        match str_to_frame_type s with
        | Ret ft =>
            match str_to_int_frame_type s with
            | Ret intkey => Ret (ft, intkey)
            | Raise e => Raise e
            | Fault => Fault
            end
        | Raise e => Raise e
        | Fault => Fault
        end
    | _ => Raise KeyError
    end.

Definition __getitem__ (key : pyobj) : M (t * World) Frame.t :=
  let* k := lift_res (normalise key) in
  let '(frame_type, intkey) := k in
  let* frame_ptr := on_self (map_index frame_type) in
  let* frame := on_world (Frame.new PyNone PyNone PyNone intkey) in
  ret (Frame.set_ptr frame_ptr frame).

End Methods.
End FrameMap.

(** ** class SyncMultiFrameListener *)

Module SyncMultiFrameListener.

Record t := {
  ptr : addr;
  listener_ptr_alias : addr
}.

Section Methods.
Context `{L : Libfreenect2}.

Definition release (self : t) : M (FrameMap.t * World) unit :=
  fun '(frame_map, W) =>
    let '(m', fr') :=
      lib_release (ptr self) (FrameMap.internal_frame_map frame_map)
                  (frames W) in
    (Ret tt,
     (FrameMap.set_internal_frame_map m' frame_map,
      {| frames := fr'; brk := brk W; deleted := deleted W;
         trace := Call_release (ptr self) :: trace W |})).

End Methods.

Section Lifecycle.
Context `{L : Libfreenect2} `{LL : ListenerLibrary}.

(** The default of [frame_types]. *)
Definition default_frame_types : pyobj :=
  PyInt (Z.lor (Z.lor (IntEnum_value Color) (IntEnum_value Ir))
           (IntEnum_value Depth)).

Definition __cinit__ (frame_types : pyobj) : M World t :=
  let* _ := lift_res (as_c_uint frame_types) in
  let* p := alloc in
  ret {| ptr := p; listener_ptr_alias := p |}.

Definition __dealloc__ (self : t) : M World unit :=
  if negb (ptr self =? NULL)%N then del (ptr self) else ret tt.

(** [waitForNewFrame], for a call of the library that returns; the call
    blocks until a frame arrives.  The map handed in is written in place
    and returned; [trace] gets no entry. *)
Definition waitForNewFrame (self : t) (frame_map : option FrameMap.t)
  : M World FrameMap.t :=
  let frame_map :=
    match frame_map with
    | None => FrameMap.__cinit__ false
    | Some fm => fm
    end in
  fun W =>
    let '(m', fr') :=
      lib_waitForNewFrame (ptr self)
        (FrameMap.internal_frame_map frame_map) (frames W) in
    (Ret (FrameMap.set_internal_frame_map m' frame_map),
     {| frames := fr'; brk := brk W; deleted := deleted W;
        trace := trace W |}).

End Lifecycle.
End SyncMultiFrameListener.

(** ** class Registration *)

Module Registration.

Record t := { ptr : addr }.

Section Methods.
Context `{L : Libfreenect2}.

Definition apply (self : t) (rgb depth undistored registered : Frame.t)
    (enable_filter : bool) (bigdepth : option Frame.t) : M World unit :=
  let* _ := py_assert (eqb (Frame.take_ownership rgb) false) in
  let* _ := py_assert (eqb (Frame.take_ownership depth) false) in
  let* _ := py_assert (eqb (Frame.take_ownership undistored) true) in
  let* _ := py_assert (eqb (Frame.take_ownership registered) true) in
  let* _ := py_assert (match bigdepth with
                       | None => true
                       | Some b => eqb (Frame.take_ownership b) true
                       end) in
  let bigdepth_ptr :=
    match bigdepth with None => NULL | Some b => Frame.ptr b end in
  let c := Call_Registration_apply (ptr self) (Frame.ptr rgb)
             (Frame.ptr depth) (Frame.ptr undistored) (Frame.ptr registered)
             enable_filter bigdepth_ptr in
  let* _ := call c in
  on_frames (lib_apply c).

End Methods.
End Registration.

(** ** class CpuPacketPipeline (PacketPipeline) *)

Module CpuPacketPipeline.

(** The two fields inherited from [PacketPipeline] and the subclass's own
    pointer. *)
Record t := {
  pipeline_ptr_alias : addr;
  owned_by_device : bool;
  pipeline : addr
}.

Definition set_owned_by_device (b : bool) (self : t) : t :=
  {| pipeline_ptr_alias := pipeline_ptr_alias self;
     owned_by_device := b;
     pipeline := pipeline self |}.

Definition __cinit__ : M World t :=
  let* p := alloc in
  ret {| pipeline_ptr_alias := p; owned_by_device := false; pipeline := p |}.

Definition __dealloc__ (self : t) : M World unit :=
  if negb (owned_by_device self) then
    if negb (pipeline self =? NULL)%N then del (pipeline self) else ret tt
  else ret tt.

End CpuPacketPipeline.

(** ** class Freenect2Device *)

(** A value the library returned from a call; the wrapper hands it on
    without looking at it. *)
Inductive returned := Returned (c : NativeCall).

Module Freenect2Device.

Record t := { ptr : addr }.

Definition forward (c : NativeCall) : M World returned :=
  let* _ := call c in ret (Returned c).

Definition getSerialNumber (self : t) : M World returned :=
  forward (Call_getSerialNumber (ptr self)).

Definition getFirmwareVersion (self : t) : M World returned :=
  forward (Call_getFirmwareVersion (ptr self)).

(** The returned [ColorCameraParams] object holds the library's struct. *)
Definition getColorCameraParams (self : t) : M World returned :=
  forward (Call_getColorCameraParams (ptr self)).

Definition getIrCameraParams (self : t) : M World returned :=
  forward (Call_getIrCameraParams (ptr self)).

Definition setColorFrameListener (self : t)
    (listener : SyncMultiFrameListener.t) : M World unit :=
  call (Call_setColorFrameListener (ptr self)
          (SyncMultiFrameListener.listener_ptr_alias listener)).

Definition setIrAndDepthFrameListener (self : t)
    (listener : SyncMultiFrameListener.t) : M World unit :=
  call (Call_setIrAndDepthFrameListener (ptr self)
          (SyncMultiFrameListener.listener_ptr_alias listener)).

Definition start (self : t) : M World unit := call (Call_start (ptr self)).
Definition stop (self : t) : M World unit := call (Call_stop (ptr self)).
Definition close (self : t) : M World unit := call (Call_close (ptr self)).

(** A method call on a device, for sequences of calls. *)
Inductive method :=
| m_getSerialNumber
| m_getFirmwareVersion
| m_getColorCameraParams
| m_getIrCameraParams
| m_setColorFrameListener (listener : SyncMultiFrameListener.t)
| m_setIrAndDepthFrameListener (listener : SyncMultiFrameListener.t)
| m_start
| m_stop
| m_close.

(** The library call a method forwards. *)
Definition native_of (self : t) (m : method) : NativeCall :=
  match m with
  | m_getSerialNumber => Call_getSerialNumber (ptr self)
  | m_getFirmwareVersion => Call_getFirmwareVersion (ptr self)
  | m_getColorCameraParams => Call_getColorCameraParams (ptr self)
  | m_getIrCameraParams => Call_getIrCameraParams (ptr self)
  | m_setColorFrameListener l =>
      Call_setColorFrameListener (ptr self)
        (SyncMultiFrameListener.listener_ptr_alias l)
  | m_setIrAndDepthFrameListener l =>
      Call_setIrAndDepthFrameListener (ptr self)
        (SyncMultiFrameListener.listener_ptr_alias l)
  | m_start => Call_start (ptr self)
  | m_stop => Call_stop (ptr self)
  | m_close => Call_close (ptr self)
  end.

(** Invoke a method; [None] stands for Python's [None] result. *)
Definition invoke (self : t) (m : method) : M World (option returned) :=
  match m with
  | m_getSerialNumber => let* r := getSerialNumber self in ret (Some r)
  | m_getFirmwareVersion => let* r := getFirmwareVersion self in ret (Some r)
  | m_getColorCameraParams =>
      let* r := getColorCameraParams self in ret (Some r)
  | m_getIrCameraParams => let* r := getIrCameraParams self in ret (Some r)
  | m_setColorFrameListener l =>
      let* _ := setColorFrameListener self l in ret None
  | m_setIrAndDepthFrameListener l =>
      let* _ := setIrAndDepthFrameListener self l in ret None
  | m_start => let* _ := start self in ret None
  | m_stop => let* _ := stop self in ret None
  | m_close => let* _ := close self in ret None
  end.

(** A sequence of method calls on one device, oldest first, stopping at
    the first that does not return. *)
Fixpoint invoke_all (self : t) (ms : list method) : M World unit :=
  match ms with
  | [] => ret tt
  | m :: ms' => let* _ := invoke self m in invoke_all self ms'
  end.

End Freenect2Device.

(** ** class Freenect2 *)

Module Freenect2.

Record t := { ptr : addr }.

Section Methods.
Context `{L : Libfreenect2}.

(** The [if pipeline is None: ... else: ...] block the three entry points
    share: the library call with or without the pipeline pointer, and the
    flag set on the pipeline object that was passed. *)
Definition open_with (mk : option addr -> NativeCall)
  : M (option CpuPacketPipeline.t * World) Freenect2Device.t :=
  fun '(pipeline, W) =>
    match pipeline with
    | None =>
        let c := mk None in
        let dev_ptr := lib_open c in
        (Ret {| Freenect2Device.ptr := dev_ptr |},
         (None, snd (call c W)))
    | Some p =>
        let c := mk (Some (CpuPacketPipeline.pipeline_ptr_alias p)) in
        let dev_ptr := lib_open c in
        (Ret {| Freenect2Device.ptr := dev_ptr |},
         (Some (CpuPacketPipeline.set_owned_by_device true p),
          snd (call c W)))
    end.

Definition __openDevice__intidx (self : t) (idx : Z)
  : M (option CpuPacketPipeline.t * World) Freenect2Device.t :=
  open_with (Call_openDevice_idx (ptr self) idx).

Definition __openDevice__stridx (self : t) (serial : string)
  : M (option CpuPacketPipeline.t * World) Freenect2Device.t :=
  open_with (Call_openDevice_serial (ptr self) serial).

Definition openDevice (self : t) (name : pyobj)
  : M (option CpuPacketPipeline.t * World) Freenect2Device.t :=
  if isinstance_int name then
    let* idx := lift_res (as_c_int name) in
    __openDevice__intidx self idx
  else if isinstance_str name || isinstance_bytes name then
    let* serial := lift_res (as_std_string name) in
    __openDevice__stridx self serial
  else raise ValueError.

Definition openDefaultDevice (self : t)
  : M (option CpuPacketPipeline.t * World) Freenect2Device.t :=
  open_with (Call_openDefaultDevice (ptr self)).

End Methods.
End Freenect2.

(** ** The Python runtime: object identity and deallocation

    Objects live in a store under references.  The runtime calls an
    object's [__dealloc__] once, when its last reference goes, and the
    object is gone afterwards; a method that mutates an argument (the
    pipeline handed to [openDevice]) mutates the stored object, so every
    holder of the reference sees it. *)

Module Runtime.

Inductive obj :=
| FrameObj (f : Frame.t)
| PipelineObj (p : CpuPacketPipeline.t).

Record Heap := {
  objs : gmap nat obj;
  next_ref : nat;
  world : World
}.

Definition Heap0 : Heap := {| objs := ∅; next_ref := 0; world := World0 |}.

Definition with_world (h : Heap) (W : World) : Heap :=
  {| objs := objs h; next_ref := next_ref h; world := W |}.

(** Bind a new object to a fresh reference. *)
Definition store (o : obj) (h : Heap) (W : World) : Heap :=
  {| objs := <[next_ref h := o]> (objs h);
     next_ref := S (next_ref h);
     world := W |}.

Definition frame_at (h : Heap) (r : nat) : option Frame.t :=
  match objs h !! r with Some (FrameObj f) => Some f | _ => None end.

Definition pipeline_at (h : Heap) (r : nat) : option CpuPacketPipeline.t :=
  match objs h !! r with Some (PipelineObj p) => Some p | _ => None end.

Definition dealloc_obj (o : obj) : M World unit :=
  match o with
  | FrameObj f => Frame.__dealloc__ f
  | PipelineObj p => CpuPacketPipeline.__dealloc__ p
  end.

(** What a program does with frames, pipelines and devices. *)
Inductive op :=
| New_Frame (width height bytes_per_pixel frame_type : pyobj)
| Getitem (frame_map : FrameMap.t) (key : pyobj)
| Astype (r : nat) (data_type : pyobj)
| Asarray (r : nat)
| Apply (reg : Registration.t) (rgb depth undistored registered : nat)
    (enable_filter : bool) (bigdepth : option nat)
| New_CpuPacketPipeline
| OpenDevice (fn : Freenect2.t) (name : pyobj) (pipeline : option nat)
| OpenDefaultDevice (fn : Freenect2.t) (pipeline : option nat)
| Invoke (dev : Freenect2Device.t) (m : Freenect2Device.method)
| Dealloc (r : nat).

Section Step.
Context `{L : Libfreenect2}.

(** An [open] entry point run on the stored pipeline object. *)
Definition open_on (h : Heap) (pipeline : option nat)
    (f : M (option CpuPacketPipeline.t * World) Freenect2Device.t) : Heap :=
  match pipeline with
  | None => with_world h (snd (snd (f (None, world h))))
  | Some r =>
      match pipeline_at h r with
      | Some p =>
          let '(_, (p', W)) := f (Some p, world h) in
          {| objs := match p' with
                     | Some q => <[r := PipelineObj q]> (objs h)
                     | None => objs h
                     end;
             next_ref := next_ref h;
             world := W |}
      | None => h
      end
  end.

(** One operation.  An operation on a reference that designates no live
    object of the right class cannot be written in Python and leaves the
    heap as it is. *)
Definition step (o : op) (h : Heap) : Heap :=
  match o with
  | New_Frame w hh b ft =>
      match Frame.new w hh b ft (world h) with
      | (Ret f, W) => store (FrameObj f) h W
      | (_, W) => with_world h W
      end
  | Getitem fm key =>
      match FrameMap.__getitem__ key (fm, world h) with
      | (Ret f, (_, W)) => store (FrameObj f) h W
      | (_, (_, W)) => with_world h W
      end
  | Astype r dt =>
      match frame_at h r with
      | Some f => with_world h (snd (Frame.astype f dt (world h)))
      | None => h
      end
  | Asarray r =>
      match frame_at h r with
      | Some f => with_world h (snd (Frame.asarray f (world h)))
      | None => h
      end
  | Apply reg r1 r2 r3 r4 flt big =>
      match frame_at h r1, frame_at h r2, frame_at h r3, frame_at h r4 with
      | Some f1, Some f2, Some f3, Some f4 =>
          match big with
          | None =>
              with_world h
                (snd (Registration.apply reg f1 f2 f3 f4 flt None (world h)))
          | Some r5 =>
              match frame_at h r5 with
              | Some f5 =>
                  with_world h
                    (snd (Registration.apply reg f1 f2 f3 f4 flt (Some f5)
                            (world h)))
              | None => h
              end
          end
      | _, _, _, _ => h
      end
  | New_CpuPacketPipeline =>
      match CpuPacketPipeline.__cinit__ (world h) with
      | (Ret p, W) => store (PipelineObj p) h W
      | (_, W) => with_world h W
      end
  | OpenDevice fn name pipeline =>
      open_on h pipeline (Freenect2.openDevice fn name)
  | OpenDefaultDevice fn pipeline =>
      open_on h pipeline (Freenect2.openDefaultDevice fn)
  | Invoke dev m =>
      with_world h (snd (Freenect2Device.invoke dev m (world h)))
  | Dealloc r =>
      match objs h !! r with
      | Some o =>
          {| objs := delete r (objs h);
             next_ref := next_ref h;
             world := snd (dealloc_obj o (world h)) |}
      | None => h
      end
  end.

(** A program: operations, oldest first. *)
Definition run (ops : list op) (h : Heap) : Heap :=
  foldl (fun h o => step o h) h ops.

End Step.
End Runtime.

(** ** libfreenect2 as the wrapper's comments and docstrings describe it

    [FrameType] has the values of [libfreenect2::Frame::Type] (the
    docstring of [FrameMap.__getitem__] indexes color as [frames[1]]);
    [release] deletes every non-null entry and nulls it (comment in
    [FrameMap.__dealloc__]). *)

Definition release_entries (m : gmap LibFreenect2FrameType addr)
    (fr : gmap N NativeFrame)
  : gmap LibFreenect2FrameType addr * gmap N NativeFrame :=
  ((fun _ => NULL) <$> m,
   foldr (fun k fr => match m !! k with
                      | Some p => delete p fr
                      | None => fr
                      end) fr FrameMap.key_order).

Definition Frame_Type (m : FrameType) : Z :=
  match m with Color => 1 | Ir => 2 | Depth => 4 end.

Definition size_t_of (o : pyobj) : res N :=
  let conv z := if (0 <=? z) && (z <? 2 ^ 64) then Ret (Z.to_N z)
                else Raise OverflowError in
  match o with
  | PyInt z => conv z
  | PyEnum m => conv (Frame_Type m)
  | PyNumber (Ret z) => conv z
  | PyNumber (Raise e) => Raise e
  | PyNumber Fault => Fault
  | _ => Raise TypeError
  end.

Definition reference_library : Libfreenect2 :=
  {| IntEnum_value := Frame_Type;
     Frame_dim := size_t_of;
     as_std_string := fun o => match o with
                               | PyBytes s => Ret s
                               | _ => Raise TypeError
                               end;
     lib_release := fun _ => release_entries;
     lib_apply := fun _ fr => fr;
     lib_open := fun _ => 4096%N |}.

(** A listener that delivers one frame per channel, each newly
    allocated above every live frame. *)
Definition deliver_frames (m : gmap LibFreenect2FrameType addr)
    (fr : gmap N NativeFrame)
  : gmap LibFreenect2FrameType addr * gmap N NativeFrame :=
  let base := (1000 + N.of_nat (size fr) * 2)%N in
  let color := {| width := 1920; height := 1080; bytes_per_pixel := 4;
                  data := base + 1 |}%N in
  let depth := {| width := 512; height := 424; bytes_per_pixel := 4;
                  data := base + 3 |}%N in
  let ir := {| width := 512; height := 424; bytes_per_pixel := 4;
               data := base + 5 |}%N in
  (<[libfreenect2_Color := base]>
     (<[libfreenect2_Depth := (base + 2)%N]>
        (<[libfreenect2_Ir := (base + 4)%N]> m)),
   <[base := color]> (<[(base + 2)%N := depth]> (<[(base + 4)%N := ir]> fr))).

Definition reference_listener : ListenerLibrary :=
  {| lib_waitForNewFrame := fun _ => deliver_frames |}.

(** ** Vocabulary of the statements *)

Section Vocabulary.
Import Runtime.

(** The frame a lookup builds once the key is normalised: it wraps the
    pointer stored for the channel, or null for a channel with no entry,
    which [operator[]] then adds to the map. *)
Definition looked_up (fm : FrameMap.t) (ft : LibFreenect2FrameType)
    (n : Z) : Frame.t * FrameMap.t :=
  match FrameMap.internal_frame_map fm !! ft with
  | Some p =>
      ({| Frame.ptr := p; Frame.take_ownership := false;
          Frame.frame_type := n |}, fm)
  | None =>
      ({| Frame.ptr := NULL; Frame.take_ownership := false;
          Frame.frame_type := n |},
       FrameMap.set_internal_frame_map
         (<[ft := NULL]> (FrameMap.internal_frame_map fm)) fm)
  end.

(** The canonical lowercase name of a channel. *)
Definition canonical (m : FrameType) : string :=
  match m with
  | Color => "color"
  | Ir => "ir"
  | Depth => "depth"
  end.

(** The non-null pointers of a map, in the order of its keys. *)
Definition entry_pointers (fm : FrameMap.t) : list addr :=
  filter (fun p => p <> NULL)
    (omap (fun k => FrameMap.internal_frame_map fm !! k) FrameMap.key_order).

(** The C++ tag of a channel. *)
Definition tag (m : FrameType) : LibFreenect2FrameType :=
  match m with
  | Color => libfreenect2_Color
  | Ir => libfreenect2_Ir
  | Depth => libfreenect2_Depth
  end.

(** The world after one more forwarded call. *)
Definition add_call (c : NativeCall) (W : World) : World :=
  {| frames := frames W; brk := brk W; deleted := deleted W;
     trace := c :: trace W |}.

(** The address an object's [__dealloc__] passes to [del], if any. *)
Definition owns (o : obj) : option addr :=
  match o with
  | FrameObj f =>
      if Frame.take_ownership f && negb (Frame.ptr f =? NULL)%N
      then Some (Frame.ptr f) else None
  | PipelineObj p =>
      if negb (CpuPacketPipeline.owned_by_device p)
         && negb (CpuPacketPipeline.pipeline p =? NULL)%N
      then Some (CpuPacketPipeline.pipeline p) else None
  end.

(** The world after [del a]. *)
Definition free (a : addr) (W : World) : World :=
  {| frames := delete a (frames W); brk := brk W;
     deleted := a :: deleted W; trace := trace W |}.

(** A step of the module that frees nothing. *)
Definition quiet (W W' : World) : Prop :=
  deleted W' = deleted W /\ (brk W <= brk W')%N.

(** What an [open] entry point leaves of the pipeline it was given. *)
Definition opened (f : M (option CpuPacketPipeline.t * World)
                         Freenect2Device.t) : Prop :=
  forall po W r po' W',
    f (po, W) = (r, (po', W')) ->
    quiet W W'
    /\ (po' = po
        \/ exists p, po = Some p
                     /\ po' = Some (CpuPacketPipeline.set_owned_by_device
                                      true p)).

(** The shapes a step of the runtime can take. *)
Inductive effect (h : Heap) : Heap -> Prop :=
| eff_world (W' : World) :
    quiet (world h) W' -> effect h (with_world h W')
| eff_store (o : obj) (W' : World) :
    quiet (world h) W' ->
    (forall a, owns o = Some a -> (brk (world h) < a <= brk W')%N) ->
    (forall p, o = PipelineObj p ->
               CpuPacketPipeline.owned_by_device p = false) ->
    effect h (store o h W')
| eff_transfer (r : nat) (p : CpuPacketPipeline.t) (W' : World) :
    objs h !! r = Some (PipelineObj p) ->
    quiet (world h) W' ->
    effect h {| objs := <[r := PipelineObj
                                 (CpuPacketPipeline.set_owned_by_device
                                    true p)]> (objs h);
                next_ref := next_ref h;
                world := W' |}
| eff_dealloc (r : nat) (o : obj) :
    objs h !! r = Some o ->
    effect h {| objs := delete r (objs h);
                next_ref := next_ref h;
                world := snd (dealloc_obj o (world h)) |}
| eff_none : effect h h.

(** An address that no live object will free and that has not been freed:
    the state of a pipeline handed to a device. *)
Definition handed_over (a : addr) (h : Heap) : Prop :=
  (a ∉ deleted (world h))
  /\ (a <= brk (world h))%N
  /\ (forall r o, objs h !! r = Some o -> owns o <> Some a).

(** The invariant of the runtime: nothing was freed twice; what was freed
    is non-null and below the allocation mark; what a live object will
    free is allocated, not yet freed and owned by that object alone;
    references are below the next fresh one; a pipeline marked
    [owned_by_device] is handed over. *)
Record Inv (h : Heap) : Prop := {
  inv_nodup : NoDup (deleted (world h));
  inv_deleted : forall a, a ∈ deleted (world h) ->
                          a <> NULL /\ (a <= brk (world h))%N;
  inv_owned : forall r o a, objs h !! r = Some o -> owns o = Some a ->
                            (a <= brk (world h))%N
                            /\ (a ∉ deleted (world h));
  inv_unique : forall r1 r2 o1 o2 a,
      objs h !! r1 = Some o1 -> objs h !! r2 = Some o2 ->
      owns o1 = Some a -> owns o2 = Some a -> r1 = r2;
  inv_refs : forall r o, objs h !! r = Some o -> (r < next_ref h)%nat;
  inv_transferred : forall r p,
      objs h !! r = Some (PipelineObj p) ->
      CpuPacketPipeline.owned_by_device p = true ->
      handed_over (CpuPacketPipeline.pipeline p) h
}.

End Vocabulary.

(** * Properties *)

(** ** Frame construction *)

Section FrameFacts.
Context `{L : Libfreenect2}.

(** [Frame(frame_type=n)]: no native frame, nothing allocated. *)
Lemma Frame_new_borrowed (o : pyobj) (n : Z) (W : World) :
  as_c_int o = Ret n ->
  Frame.new PyNone PyNone PyNone o W =
  (Ret {| Frame.ptr := NULL; Frame.take_ownership := false;
          Frame.frame_type := n |}, W).
Proof.
  intros Ho. unfold Frame.new, bind, lift_res. rewrite Ho. reflexivity.
Qed.

Lemma as_c_int_range (o : pyobj) (n : Z) :
  as_c_int o = Ret n -> INT_MIN <= n <= INT_MAX.
Proof.
  unfold as_c_int, as_c_int_of.
  destruct o as [| z | m | | | | [z | |] |]; try discriminate;
    (destruct (_ && _) eqn:E; [| discriminate]);
    intros [= <-]; apply andb_true_iff in E as [? ?]; lia.
Qed.

Lemma as_c_int_PyInt (z : Z) :
  INT_MIN <= z <= INT_MAX -> as_c_int (PyInt z) = Ret z.
Proof.
  intros [? ?]. unfold as_c_int, as_c_int_of.
  replace (INT_MIN <=? z) with true by (symmetry; apply Z.leb_le; lia).
  replace (z <=? INT_MAX) with true by (symmetry; apply Z.leb_le; lia).
  reflexivity.
Qed.

Lemma as_c_int_PyEnum (m : FrameType) :
  INT_MIN <= IntEnum_value m <= INT_MAX ->
  as_c_int (PyEnum m) = Ret (IntEnum_value m).
Proof.
  intros [? ?]. unfold as_c_int, as_c_int_of.
  replace (INT_MIN <=? _) with true by (symmetry; apply Z.leb_le; lia).
  replace (_ <=? INT_MAX) with true by (symmetry; apply Z.leb_le; lia).
  reflexivity.
Qed.

End FrameFacts.

(** ** Channel lookup *)

Section FrameMapFacts.
Context `{L : Libfreenect2}.

Lemma normalise_intkey (key intkey : pyobj) (ft : LibFreenect2FrameType) :
  FrameMap.normalise key = Ret (ft, intkey) ->
  exists n, as_c_int intkey = Ret n /\ intenum_to_frame_type n = Ret ft.
Proof.
  unfold FrameMap.normalise.
  destruct (isinstance_int key || isinstance_FrameType key) eqn:Hk.
  - destruct (as_c_int key) as [n| |] eqn:Hn; try discriminate.
    destruct (intenum_to_frame_type n) as [ft'| |] eqn:Hft; try discriminate.
    intros [= <- <-]. exists n. by rewrite Hn.
  - destruct key; try discriminate.
    unfold str_to_frame_type.
    destruct (str_to_int_frame_type s) as [o| |] eqn:Hs; try discriminate.
    destruct (as_c_int o) as [n| |] eqn:Hn; try discriminate.
    destruct (intenum_to_frame_type n) as [ft'| |] eqn:Hft; try discriminate.
    intros [= <- <-]. exists n. by rewrite Hn.
Qed.

Lemma getitem_normalised (fm : FrameMap.t) (W : World) (key intkey : pyobj)
    (ft : LibFreenect2FrameType) (n : Z) :
  FrameMap.normalise key = Ret (ft, intkey) ->
  as_c_int intkey = Ret n ->
  FrameMap.__getitem__ key (fm, W) =
  (Ret (fst (looked_up fm ft n)), (snd (looked_up fm ft n), W)).
Proof.
  intros Hk Hn.
  unfold FrameMap.__getitem__, bind, lift_res. rewrite Hk.
  unfold on_self, on_world, FrameMap.map_index, looked_up.
  destruct (FrameMap.internal_frame_map fm !! ft) as [p|];
    rewrite (Frame_new_borrowed _ _ _ Hn); reflexivity.
Qed.

Lemma getitem_raises (fm : FrameMap.t) (W : World) (key : pyobj) (e : exn) :
  FrameMap.normalise key = Raise e ->
  FrameMap.__getitem__ key (fm, W) = (Raise e, (fm, W)).
Proof.
  intros Hk. unfold FrameMap.__getitem__, bind, lift_res. by rewrite Hk.
Qed.

Lemma intenum_unknown (n : Z) :
  n <> IntEnum_value Color -> n <> IntEnum_value Ir ->
  n <> IntEnum_value Depth ->
  intenum_to_frame_type n = Raise ValueError.
Proof.
  intros H1 H2 H3. unfold intenum_to_frame_type.
  apply Z.eqb_neq in H1, H2, H3. by rewrite H1, H2, H3.
Qed.

Lemma intenum_known (m : FrameType) :
  exists ft, intenum_to_frame_type (IntEnum_value m) = Ret ft.
Proof.
  unfold intenum_to_frame_type.
  destruct m.
  - rewrite Z.eqb_refl. eauto.
  - destruct (_ =? IntEnum_value Color); [eauto |].
    rewrite Z.eqb_refl. eauto.
  - destruct (_ =? IntEnum_value Color); [eauto |].
    destruct (_ =? IntEnum_value Ir); [eauto |].
    rewrite Z.eqb_refl. eauto.
Qed.

Lemma normalise_unknown_int (z : Z) :
  z <> IntEnum_value Color -> z <> IntEnum_value Ir ->
  z <> IntEnum_value Depth ->
  exists e, FrameMap.normalise (PyInt z) = Raise e.
Proof.
  intros H1 H2 H3. unfold FrameMap.normalise.
  change (isinstance_int (PyInt z) || isinstance_FrameType (PyInt z))
    with true. cbv iota.
  destruct (as_c_int (PyInt z)) as [n| |] eqn:Hn; eauto.
  - assert (n = z) as ->.
    { revert Hn. unfold as_c_int, as_c_int_of.
      destruct (_ && _); congruence. }
    rewrite (intenum_unknown z H1 H2 H3). eauto.
  - revert Hn. unfold as_c_int, as_c_int_of. destruct (_ && _); discriminate.
Qed.

Lemma normalise_unknown_str (s : string) :
  lower s <> "color"%string -> lower s <> "ir"%string ->
  lower s <> "depth"%string ->
  FrameMap.normalise (PyStr s) = Raise ValueError.
Proof.
  intros H1 H2 H3. unfold FrameMap.normalise.
  change (isinstance_int (PyStr s) || isinstance_FrameType (PyStr s))
    with false. cbv iota.
  unfold str_to_frame_type, str_to_int_frame_type.
  apply String.eqb_neq in H1, H2, H3. by rewrite H1, H2, H3.
Qed.

Lemma normalise_other_type (key : pyobj) :
  isinstance_int key = false -> isinstance_str key = false ->
  FrameMap.normalise key = Raise KeyError.
Proof.
  intros Hi Hs. unfold FrameMap.normalise.
  destruct key; cbn in *; try discriminate; reflexivity.
Qed.

End FrameMapFacts.

Lemma str_to_int_canonical `{L : Libfreenect2} (m : FrameType) :
  str_to_int_frame_type (canonical m) = Ret (PyEnum m).
Proof. by destruct m. Qed.

(** C6, counterexample: in a [FrameMap] with no depth entry, the lookup
    of ["depth"] does not fail with [KeyError]; it returns a [Frame] around
    the null pointer and leaves a null entry in the map. *)
Lemma C6_unset_channel_returns_frame :
  let fm := FrameMap.__cinit__ false in
  @FrameMap.__getitem__ reference_library (PyStr "depth") (fm, World0) =
  (Ret {| Frame.ptr := NULL; Frame.take_ownership := false;
          Frame.frame_type := 4 |},
   (FrameMap.set_internal_frame_map {[ libfreenect2_Depth := NULL ]} fm,
    World0))
  /\ fst (@FrameMap.__getitem__ reference_library (PyStr "depth")
            (fm, World0)) <> Raise KeyError.
Proof. split; [reflexivity | discriminate]. Qed.

(** C6, as amended: [FrameMap.__getitem__] fails with [KeyError] for a
    key that is neither an int (or [FrameType] member) nor a str, and
    raises for an int or a str that names none of Color, Ir, Depth; in
    both cases the map is unchanged.  For a recognised key whose channel
    has no entry it does not fail: it returns a [Frame] around the null
    pointer that does not own it, and the null entry is added to the
    map. *)
Theorem C6_getitem_failure_modes `{L : Libfreenect2}
    (fm : FrameMap.t) (W : World) :
  (forall key : pyobj,
      isinstance_int key = false -> isinstance_str key = false ->
      FrameMap.__getitem__ key (fm, W) = (Raise KeyError, (fm, W)))
  /\ (forall z : Z,
         z <> IntEnum_value Color -> z <> IntEnum_value Ir ->
         z <> IntEnum_value Depth ->
         raises (fst (FrameMap.__getitem__ (PyInt z) (fm, W))) = true
         /\ snd (FrameMap.__getitem__ (PyInt z) (fm, W)) = (fm, W))
  /\ (forall s : string,
         lower s <> "color"%string -> lower s <> "ir"%string ->
         lower s <> "depth"%string ->
         raises (fst (FrameMap.__getitem__ (PyStr s) (fm, W))) = true
         /\ snd (FrameMap.__getitem__ (PyStr s) (fm, W)) = (fm, W))
  /\ (forall (key intkey : pyobj) (ft : LibFreenect2FrameType),
         FrameMap.normalise key = Ret (ft, intkey) ->
         FrameMap.internal_frame_map fm !! ft = None ->
         exists n : Z,
           FrameMap.__getitem__ key (fm, W) =
           (Ret {| Frame.ptr := NULL; Frame.take_ownership := false;
                   Frame.frame_type := n |},
            (FrameMap.set_internal_frame_map
               (<[ft := NULL]> (FrameMap.internal_frame_map fm)) fm, W))).
Proof.
  repeat split.
  - intros key Hi Hs.
    apply getitem_raises, normalise_other_type; assumption.
  - destruct (normalise_unknown_int z) as [e He]; try assumption.
    by rewrite (getitem_raises fm W _ _ He).
  - destruct (normalise_unknown_int z) as [e He]; try assumption.
    by rewrite (getitem_raises fm W _ _ He).
  - rewrite (getitem_raises fm W _ _ (normalise_unknown_str s H H0 H1)).
    reflexivity.
  - rewrite (getitem_raises fm W _ _ (normalise_unknown_str s H H0 H1)).
    reflexivity.
  - intros key intkey ft Hk Hnone.
    destruct (normalise_intkey _ _ _ Hk) as (n & Hn & _).
    exists n. rewrite (getitem_normalised fm W _ _ _ _ Hk Hn).
    unfold looked_up. by rewrite Hnone.
Qed.

Lemma C6_getitem_failure_modes_witness :
  let fm := FrameMap.__cinit__ false in
  @FrameMap.__getitem__ reference_library (PyBytes "color") (fm, World0)
    = (Raise KeyError, (fm, World0))
  /\ raises (fst (@FrameMap.__getitem__ reference_library (PyInt 3)
                    (fm, World0))) = true
  /\ raises (fst (@FrameMap.__getitem__ reference_library (PyStr "rgb")
                    (fm, World0))) = true
  /\ exists n : Z,
       @FrameMap.__getitem__ reference_library (PyInt 2) (fm, World0) =
       (Ret {| Frame.ptr := NULL; Frame.take_ownership := false;
               Frame.frame_type := n |},
        (FrameMap.set_internal_frame_map
           (<[libfreenect2_Ir := NULL]> (FrameMap.internal_frame_map fm)) fm,
         World0)).
Proof.
  intros fm.
  destruct (@C6_getitem_failure_modes reference_library fm World0)
    as (H1 & H2 & H3 & H4).
  split; [apply H1; reflexivity |].
  split; [apply (H2 3); discriminate |].
  split; [apply (H3 "rgb"%string); discriminate |].
  apply (H4 (PyInt 2) (PyInt 2) libfreenect2_Ir); reflexivity.
Defined.



(** ** Lookup after release *)

(** C5, counterexample: a map whose color entry points to a live frame is
    released; the lookup of ["color"] that follows does not raise, it
    returns a [Frame] (around the null pointer the library left in the
    entry). *)
Lemma C5_lookup_after_release_returns :
  let nf := {| width := 1920; height := 1080; bytes_per_pixel := 4;
               data := 17 |}%N in
  let W := {| frames := {[ 16%N := nf ]}; brk := 18%N; deleted := [];
              trace := [] |} in
  let fm := {| FrameMap.internal_frame_map := {[ libfreenect2_Color := 16%N ]};
               FrameMap.take_ownership := false |} in
  let lst := {| SyncMultiFrameListener.ptr := 100%N;
                SyncMultiFrameListener.listener_ptr_alias := 100%N |} in
  let released := snd (@SyncMultiFrameListener.release reference_library
                         lst (fm, W)) in
  fst (@FrameMap.__getitem__ reference_library (PyStr "color") released) =
  Ret {| Frame.ptr := NULL; Frame.take_ownership := false;
         Frame.frame_type := 1 |}
  /\ raises (fst (@FrameMap.__getitem__ reference_library (PyStr "color")
                    released)) = false.
Proof. split; reflexivity. Qed.

(** C5, as amended: [SyncMultiFrameListener.release] only forwards to the
    library, which decides what the map holds afterwards; the wrapper
    frees nothing itself.  A lookup with a recognised key after the
    release does not raise: it returns a [Frame] that wraps the pointer
    the library left for the channel, the null pointer when it left none,
    and that does not own it. *)
Theorem C5_lookup_after_release `{L : Libfreenect2}
    (lst : SyncMultiFrameListener.t) (fm : FrameMap.t) (W : World)
    (key intkey : pyobj) (ft : LibFreenect2FrameType) :
  FrameMap.normalise key = Ret (ft, intkey) ->
  exists (fm' fm'' : FrameMap.t) (W' : World) (f : Frame.t),
    SyncMultiFrameListener.release lst (fm, W) = (Ret tt, (fm', W'))
    /\ FrameMap.internal_frame_map fm' =
       fst (lib_release (SyncMultiFrameListener.ptr lst)
              (FrameMap.internal_frame_map fm) (frames W))
    /\ deleted W' = deleted W
    /\ trace W' = Call_release (SyncMultiFrameListener.ptr lst) :: trace W
    /\ FrameMap.__getitem__ key (fm', W') = (Ret f, (fm'', W'))
    /\ Frame.ptr f = default NULL (FrameMap.internal_frame_map fm' !! ft)
    /\ Frame.take_ownership f = false.
Proof.
  intros Hk.
  destruct (normalise_intkey _ _ _ Hk) as (n & Hn & _).
  unfold SyncMultiFrameListener.release.
  destruct (lib_release _ _ _) as [m' fr'] eqn:Hrel.
  eexists _, _, _, _.
  split; [reflexivity |].
  split; [reflexivity |].
  split; [reflexivity |].
  split; [reflexivity |].
  split; [apply (getitem_normalised _ _ _ _ _ _ Hk Hn) |].
  unfold looked_up. cbn.
  destruct (m' !! ft); split; reflexivity.
Qed.

Lemma C5_lookup_after_release_witness :
  let fm := {| FrameMap.internal_frame_map := {[ libfreenect2_Depth := 16%N ]};
               FrameMap.take_ownership := false |} in
  let lst := {| SyncMultiFrameListener.ptr := 100%N;
                SyncMultiFrameListener.listener_ptr_alias := 100%N |} in
  exists (fm' fm'' : FrameMap.t) (W' : World) (f : Frame.t),
    @SyncMultiFrameListener.release reference_library lst (fm, World0)
      = (Ret tt, (fm', W'))
    /\ FrameMap.internal_frame_map fm' =
       fst (release_entries (FrameMap.internal_frame_map fm) (frames World0))
    /\ deleted W' = deleted World0
    /\ trace W' = Call_release 100%N :: trace World0
    /\ @FrameMap.__getitem__ reference_library (PyEnum Depth) (fm', W')
       = (Ret f, (fm'', W'))
    /\ Frame.ptr f =
       default NULL (FrameMap.internal_frame_map fm' !! libfreenect2_Depth)
    /\ Frame.take_ownership f = false.
Proof.
  intros fm lst.
  apply (@C5_lookup_after_release reference_library lst fm World0
           (PyEnum Depth) (PyEnum Depth) libfreenect2_Depth).
  reflexivity.
Defined.

(** ** Array views *)

Section ViewFacts.
Context `{L : Libfreenect2}.

Lemma npy_intp_of_small (n : N) :
  (n < 2 ^ 63)%N -> npy_intp_of n = Z.of_N n.
Proof.
  intros Hn. unfold npy_intp_of.
  assert (0 <= Z.of_N n < 2 ^ 63) as [? ?].
  { split; [lia |]. change (2 ^ 63) with (Z.of_N (2 ^ 63)). lia. }
  rewrite Z.mod_small by lia.
  destruct (Z.of_N n <? 2 ^ 63) eqn:E; [reflexivity |].
  apply Z.ltb_ge in E. lia.
Qed.

Lemma view_size_bounds (h w : N) :
  (N.max 1 h * N.max 1 w * 4 < 2 ^ 63)%N ->
  0 <= Z.of_N h /\ 0 <= Z.of_N w
  /\ Z.max 1 (Z.of_N h) * Z.max 1 (Z.of_N w) * 4 <= NPY_MAX_INTP
  /\ (h < 2 ^ 63)%N /\ (w < 2 ^ 63)%N.
Proof.
  intros Hb.
  assert (Hz : Z.max 1 (Z.of_N h) * Z.max 1 (Z.of_N w) * 4 < 2 ^ 63).
  { apply N2Z.inj_lt in Hb.
    rewrite !N2Z.inj_mul, !N2Z.inj_max in Hb. exact Hb. }
  assert (0 <= Z.of_N h) by lia. assert (0 <= Z.of_N w) by lia.
  assert (1 <= Z.max 1 (Z.of_N h)) by lia.
  assert (1 <= Z.max 1 (Z.of_N w)) by lia.
  assert (Z.of_N h <= Z.max 1 (Z.of_N h)) by lia.
  assert (Z.of_N w <= Z.max 1 (Z.of_N w)) by lia.
  unfold NPY_MAX_INTP.
  repeat split; lia.
Qed.

(** Both views of a frame pass numpy's size check when height x width x
    4 bytes, an empty dimension counted as 1, fit [npy_intp]. *)
Lemma array_nbytes_fits (h w : Z) :
  0 <= h -> 0 <= w -> Z.max 1 h * Z.max 1 w * 4 <= NPY_MAX_INTP ->
  is_Some (array_nbytes (itemsize NPY_UINT8) [h; w; 4])
  /\ is_Some (array_nbytes (itemsize NPY_FLOAT32) [h; w]).
Proof.
  intros Hh Hw Hb. cbn [array_nbytes itemsize].
  change (4 =? 0) with false. change (4 <? 0) with false. cbv iota.
  destruct (Z.eqb_spec h 0) as [-> | Hh0], (Z.eqb_spec w 0) as [-> | Hw0];
    rewrite ?(Z.max_l 1 0), ?(Z.max_r 1 h), ?(Z.max_r 1 w) in Hb by lia;
    repeat match goal with
      | |- context [?a <? 0] =>
          replace (a <? 0) with false by (symmetry; apply Z.ltb_ge; nia)
      | |- context [NPY_MAX_INTP <? ?a] =>
          replace (NPY_MAX_INTP <? a) with false
            by (symmetry; apply Z.ltb_ge; nia)
      end;
    split; eauto.
Qed.

Lemma uint8_data_view (f : Frame.t) (W : World) (nf : NativeFrame) :
  frames W !! Frame.ptr f = Some nf ->
  (N.max 1 (height nf) * N.max 1 (width nf) * 4 < 2 ^ 63)%N ->
  Frame.__uint8_data f W =
  (Ret {| nd := 3; dims := [Z.of_N (height nf); Z.of_N (width nf); 4];
          typenum := NPY_UINT8; buffer := data nf |}, W).
Proof.
  intros Hp Hb. unfold Frame.__uint8_data, bind, deref. rewrite Hp.
  destruct (view_size_bounds _ _ Hb) as (Hh & Hw & Hz & Hhs & Hws).
  rewrite !npy_intp_of_small by assumption.
  unfold PyArray_SimpleNewFromData.
  destruct (array_nbytes_fits _ _ Hh Hw Hz) as [[n ->] _]. reflexivity.
Qed.

Lemma float32_data_view (f : Frame.t) (W : World) (nf : NativeFrame) :
  frames W !! Frame.ptr f = Some nf ->
  (N.max 1 (height nf) * N.max 1 (width nf) * 4 < 2 ^ 63)%N ->
  Frame.__float32_data f W =
  (Ret {| nd := 2; dims := [Z.of_N (height nf); Z.of_N (width nf)];
          typenum := NPY_FLOAT32; buffer := data nf |}, W).
Proof.
  intros Hp Hb. unfold Frame.__float32_data, bind, deref. rewrite Hp.
  destruct (view_size_bounds _ _ Hb) as (Hh & Hw & Hz & Hhs & Hws).
  rewrite !npy_intp_of_small by assumption.
  unfold PyArray_SimpleNewFromData.
  destruct (array_nbytes_fits _ _ Hh Hw Hz) as [_ [n ->]]. reflexivity.
Qed.

End ViewFacts.

(** C8, counterexample: the failures are a [ValueError] for a numpy type
    other than uint8 and float32 and for a negative frame type, and a
    failed assertion for a frame type that is no channel; no error class
    of its own for formats is raised. *)
Lemma C8_format_errors_are_ValueError_and_AssertionError :
  let f n := {| Frame.ptr := NULL; Frame.take_ownership := false;
                Frame.frame_type := n |} in
  Frame.astype (f 1) (PyType (np_other "int32")) World0
    = (Raise ValueError, World0)
  /\ @Frame.asarray reference_library (f (-1)) World0
     = (Raise ValueError, World0)
  /\ @Frame.asarray reference_library (f 3) World0
     = (Raise AssertionError, World0).
Proof. repeat split; reflexivity. Qed.

(** C8, as amended: [astype] with a data type other than uint8 and
    float32 fails with [ValueError]; [asarray] fails with [ValueError] on
    a frame whose frame type is negative (the unset -1) and with a failed
    assertion ([AssertionError]) on a frame whose non-negative frame type
    is none of Color, Ir, Depth.  No view is built and nothing changes. *)
Theorem C8_unrecognised_format_fails `{L : Libfreenect2}
    (f : Frame.t) (W : World) :
  (forall data_type : pyobj,
      py_eq_type data_type np_uint8 = false ->
      py_eq_type data_type np_float32 = false ->
      Frame.astype f data_type W = (Raise ValueError, W))
  /\ (Frame.frame_type f < 0 ->
      Frame.asarray f W = (Raise ValueError, W))
  /\ (0 <= Frame.frame_type f ->
      Frame.frame_type f <> IntEnum_value Color ->
      Frame.frame_type f <> IntEnum_value Ir ->
      Frame.frame_type f <> IntEnum_value Depth ->
      Frame.asarray f W = (Raise AssertionError, W)).
Proof.
  repeat split.
  - intros dt H1 H2. unfold Frame.astype. by rewrite H1, H2.
  - intros Hneg. unfold Frame.asarray.
    apply Z.ltb_lt in Hneg. by rewrite Hneg.
  - intros H0 H1 H2 H3. unfold Frame.asarray.
    apply Z.ltb_ge in H0. apply Z.eqb_neq in H1, H2, H3.
    by rewrite H0, H1, H2, H3.
Qed.

Lemma C8_unrecognised_format_fails_witness :
  let f n := {| Frame.ptr := 5%N; Frame.take_ownership := true;
                Frame.frame_type := n |} in
  Frame.astype (f 1) (PyStr "uint8") World0
    = (Raise ValueError, World0)
  /\ @Frame.asarray reference_library (f (-1)) World0
     = (Raise ValueError, World0)
  /\ @Frame.asarray reference_library (f 7) World0
     = (Raise AssertionError, World0).
Proof.
  intros f.
  split; [| split].
  - apply (proj1 (@C8_unrecognised_format_fails reference_library (f 1)
                    World0)); reflexivity.
  - apply (proj1 (proj2 (@C8_unrecognised_format_fails reference_library
                           (f (-1)) World0))).
    simpl. lia.
  - apply (proj2 (proj2 (@C8_unrecognised_format_fails reference_library
                           (f 7) World0))); simpl; lia.
Defined.

(** C9: for a frame whose pointer designates a live native frame of
    [height] rows and [width] columns, with a buffer of height x width x
    4 bytes that numpy can address (the size fits [npy_intp], an empty
    dimension counted as 1), [astype(np.uint8)] is the 3-dimensional
    uint8 view of shape height x width x 4 over the frame's data buffer
    and [astype(np.float32)] the 2-dimensional float32 view of shape
    height x width; [asarray] is the former when the frame type is Color
    and the latter when it is Ir or Depth.  Nothing is copied or
    changed. *)
Theorem C9_array_views `{L : Libfreenect2}
    (f : Frame.t) (W : World) (nf : NativeFrame) :
  frames W !! Frame.ptr f = Some nf ->
  (N.max 1 (height nf) * N.max 1 (width nf) * 4 < 2 ^ 63)%N ->
  0 <= IntEnum_value Color ->
  0 <= IntEnum_value Ir -> IntEnum_value Ir <> IntEnum_value Color ->
  0 <= IntEnum_value Depth -> IntEnum_value Depth <> IntEnum_value Color ->
  let uint8_view :=
    (Ret {| nd := 3; dims := [Z.of_N (height nf); Z.of_N (width nf); 4];
            typenum := NPY_UINT8; buffer := data nf |}, W) in
  let float32_view :=
    (Ret {| nd := 2; dims := [Z.of_N (height nf); Z.of_N (width nf)];
            typenum := NPY_FLOAT32; buffer := data nf |}, W) in
  Frame.astype f (PyType np_uint8) W = uint8_view
  /\ Frame.astype f (PyType np_float32) W = float32_view
  /\ (Frame.frame_type f = IntEnum_value Color ->
      Frame.asarray f W = uint8_view)
  /\ (Frame.frame_type f = IntEnum_value Ir
      \/ Frame.frame_type f = IntEnum_value Depth ->
      Frame.asarray f W = float32_view).
Proof.
  intros Hp Hb HC HI HIC HD HDC u8 f32.
  assert (Hu : Frame.astype f (PyType np_uint8) W = u8).
  { unfold Frame.astype. cbn [py_eq_type np_type_eqb negb andb].
    by apply uint8_data_view. }
  assert (Hf : Frame.astype f (PyType np_float32) W = f32).
  { unfold Frame.astype. cbn [py_eq_type np_type_eqb negb andb].
    by apply float32_data_view. }
  split; [exact Hu |]. split; [exact Hf |]. split.
  - intros Hft. unfold Frame.asarray. rewrite Hft.
    replace (IntEnum_value Color <? 0) with false
      by (symmetry; apply Z.ltb_ge; lia).
    by rewrite Z.eqb_refl.
  - intros Hft. unfold Frame.asarray.
    assert (0 <= Frame.frame_type f) by (destruct Hft as [-> | ->]; lia).
    assert (Frame.frame_type f <> IntEnum_value Color)
      by (destruct Hft as [-> | ->]; assumption).
    replace (Frame.frame_type f <? 0) with false
      by (symmetry; apply Z.ltb_ge; lia).
    replace (Frame.frame_type f =? IntEnum_value Color) with false
      by (symmetry; by apply Z.eqb_neq).
    destruct Hft as [-> | ->]; rewrite Z.eqb_refl, ?orb_true_r; exact Hf.
Qed.

Lemma C9_array_views_witness :
  let nf := {| width := 512; height := 424; bytes_per_pixel := 4;
               data := 2 |}%N in
  let W := {| frames := {[ 1%N := nf ]}; brk := 2%N; deleted := [];
              trace := [] |} in
  let f := {| Frame.ptr := 1%N; Frame.take_ownership := true;
              Frame.frame_type := 4 |} in
  let uint8_view :=
    (Ret {| nd := 3; dims := [424; 512; 4]; typenum := NPY_UINT8;
            buffer := 2%N |}, W) in
  let float32_view :=
    (Ret {| nd := 2; dims := [424; 512]; typenum := NPY_FLOAT32;
            buffer := 2%N |}, W) in
  Frame.astype f (PyType np_uint8) W = uint8_view
  /\ Frame.astype f (PyType np_float32) W = float32_view
  /\ @Frame.asarray reference_library f W = float32_view.
Proof.
  intros nf W f uint8_view float32_view.
  destruct (@C9_array_views reference_library f W nf)
    as (H1 & H2 & _ & H4); try reflexivity; try discriminate.
  split; [exact H1 |]. split; [exact H2 |].
  apply H4. right. reflexivity.
Defined.

(** Beyond that size numpy refuses the view: for a native frame of 2^32 x
    2^32 pixels both [astype] raise [ValueError]. *)
Example astype_array_too_big :
  let nf := {| width := 2 ^ 32; height := 2 ^ 32; bytes_per_pixel := 4;
               data := 2 |}%N in
  let W := {| frames := {[ 1%N := nf ]}; brk := 2%N; deleted := [];
              trace := [] |} in
  let f := {| Frame.ptr := 1%N; Frame.take_ownership := true;
              Frame.frame_type := 1 |} in
  Frame.astype f (PyType np_uint8) W = (Raise ValueError, W)
  /\ Frame.astype f (PyType np_float32) W = (Raise ValueError, W).
Proof. split; reflexivity. Qed.

(** ** Constructor arguments *)

Section CinitFacts.
Context `{L : Libfreenect2}.

(** [__cinit__] with the three dimensions given and convertible: a native
    frame is allocated at a fresh address and the object owns it. *)
Lemma cinit_owned (w h b : pyobj) (cw ch cb : N) (ft : Z) (W : World) :
  is_None w = false -> is_None h = false -> is_None b = false ->
  Frame_dim w = Ret cw -> Frame_dim h = Ret ch -> Frame_dim b = Ret cb ->
  Frame.__cinit__ w h b ft (Frame.blank, W) =
  (Ret tt,
   ({| Frame.ptr := N.succ (brk W); Frame.take_ownership := true;
       Frame.frame_type := ft |},
    {| frames := <[N.succ (brk W) :=
                     {| width := cw; height := ch; bytes_per_pixel := cb;
                        data := N.succ (N.succ (brk W)) |}]> (frames W);
       brk := N.succ (N.succ (brk W));
       deleted := deleted W;
       trace := trace W |})).
Proof.
  intros Hw Hh Hb Dw Dh Db.
  unfold Frame.__cinit__. rewrite Hw, Hh, Hb. cbn [negb andb orb].
  unfold bind, py_assert, ret, on_self, on_world, modify, lift_res.
  rewrite Dw, Dh, Db. reflexivity.
Qed.

(** [__cinit__] with the three dimensions given: the flag is set before
    anything can fail, and a failure allocates nothing. *)
Lemma cinit_not_none (w h b : pyobj) (ft : Z) (W : World) :
  is_None w = false -> is_None h = false -> is_None b = false ->
  let out := Frame.__cinit__ w h b ft (Frame.blank, W) in
  Frame.take_ownership (fst (snd out)) = true
  /\ (is_Ret (fst out) = false ->
      Frame.ptr (fst (snd out)) = NULL /\ snd (snd out) = W).
Proof.
  intros Hw Hh Hb.
  unfold Frame.__cinit__. rewrite Hw, Hh, Hb. cbn [negb andb orb].
  unfold bind, py_assert, ret, on_self, on_world, modify, lift_res.
  destruct (Frame_dim w); cbn; try (split; [reflexivity | by intros _]).
  destruct (Frame_dim h); cbn; try (split; [reflexivity | by intros _]).
  destruct (Frame_dim b); cbn; try (split; [reflexivity | by intros _]).
  split; [reflexivity | discriminate].
Qed.

Lemma cinit_all_none (ft : Z) (W : World) :
  Frame.__cinit__ PyNone PyNone PyNone ft (Frame.blank, W) =
  (Ret tt,
   ({| Frame.ptr := NULL; Frame.take_ownership := false;
       Frame.frame_type := ft |}, W)).
Proof. reflexivity. Qed.

Lemma is_None_true (o : pyobj) : is_None o = true -> o = PyNone.
Proof. by destruct o. Qed.

End CinitFacts.

(** C10: [Frame.__cinit__] takes [width], [height] and [bytes_per_pixel]
    all given or all omitted.  With some but not all of them given the
    assertion fails, the object is left as it was and the world is
    unchanged: no native frame is allocated.  With all three given
    [take_ownership] is set to true, with all three omitted to false (and
    then nothing is allocated either). *)
Theorem C10_constructor_arguments `{L : Libfreenect2}
    (width height bytes_per_pixel : pyobj) (frame_type : Z) (W : World) :
  let all_none :=
    is_None width && is_None height && is_None bytes_per_pixel in
  let all_not_none :=
    negb (is_None width) && negb (is_None height)
    && negb (is_None bytes_per_pixel) in
  let out :=
    Frame.__cinit__ width height bytes_per_pixel frame_type
      (Frame.blank, W) in
  (all_none = false -> all_not_none = false ->
   out = (Raise AssertionError, (Frame.blank, W)))
  /\ (all_not_none = true ->
      Frame.take_ownership (fst (snd out)) = true)
  /\ (all_none = true ->
      Frame.take_ownership (fst (snd out)) = false
      /\ fst out = Ret tt /\ snd (snd out) = W).
Proof.
  intros all_none all_not_none out. subst all_none all_not_none out.
  repeat split.
  - intros H1 H2. unfold Frame.__cinit__. by rewrite H1, H2.
  - intros H.
    apply andb_true_iff in H as [H Hb]. apply andb_true_iff in H as [Hw Hh].
    apply negb_true_iff in Hw, Hh, Hb.
    apply (cinit_not_none _ _ _ frame_type W Hw Hh Hb).
  - apply andb_true_iff in H as [H Hb]. apply andb_true_iff in H as [Hw Hh].
    apply is_None_true in Hw, Hh, Hb. subst. reflexivity.
  - apply andb_true_iff in H as [H Hb]. apply andb_true_iff in H as [Hw Hh].
    apply is_None_true in Hw, Hh, Hb. subst. reflexivity.
  - apply andb_true_iff in H as [H Hb]. apply andb_true_iff in H as [Hw Hh].
    apply is_None_true in Hw, Hh, Hb. subst. reflexivity.
Qed.

Lemma C10_constructor_arguments_witness :
  @Frame.__cinit__ reference_library (PyInt 512) PyNone PyNone (-1)
    (Frame.blank, World0)
  = (Raise AssertionError, (Frame.blank, World0))
  /\ Frame.take_ownership
       (fst (snd (@Frame.__cinit__ reference_library (PyInt 512) (PyInt 424)
                    (PyInt 4) (-1) (Frame.blank, World0)))) = true
  /\ Frame.take_ownership
       (fst (snd (@Frame.__cinit__ reference_library PyNone PyNone PyNone 1
                    (Frame.blank, World0)))) = false.
Proof.
  split; [| split].
  - apply (@C10_constructor_arguments reference_library (PyInt 512) PyNone
             PyNone (-1) World0); reflexivity.
  - apply (@C10_constructor_arguments reference_library (PyInt 512)
             (PyInt 424) (PyInt 4) (-1) World0); reflexivity.
  - apply (@C10_constructor_arguments reference_library PyNone PyNone PyNone
             1 World0); reflexivity.
Defined.

(** ** Registration *)

(** C2, counterexample: [apply] with a [registered] frame that does not
    own its buffer fails on the [assert]: the exception is an
    [AssertionError], not an error class for ownership. *)
Lemma C2_apply_raises_AssertionError :
  let borrowed p := {| Frame.ptr := p; Frame.take_ownership := false;
                       Frame.frame_type := 1 |} in
  let owned p := {| Frame.ptr := p; Frame.take_ownership := true;
                    Frame.frame_type := -1 |} in
  @Registration.apply reference_library {| Registration.ptr := 50%N |}
    (borrowed 10%N) (borrowed 12%N) (owned 1%N) (borrowed 0%N) true None
    World0
  = (Raise AssertionError, World0).
Proof. reflexivity. Qed.

(** C2, as amended: when [rgb] or [depth] owns its buffer, or
    [undistored], [registered] or a given [bigdepth] does not, [apply]
    fails on its assertions with [AssertionError] before the library is
    called: the world, and with it every frame, is as before. *)
Theorem C2_apply_checks_ownership_first `{L : Libfreenect2}
    (self : Registration.t) (rgb depth undistored registered : Frame.t)
    (enable_filter : bool) (bigdepth : option Frame.t) (W : World) :
  Frame.take_ownership rgb = true
  \/ Frame.take_ownership depth = true
  \/ Frame.take_ownership undistored = false
  \/ Frame.take_ownership registered = false
  \/ (exists b, bigdepth = Some b /\ Frame.take_ownership b = false) ->
  Registration.apply self rgb depth undistored registered enable_filter
    bigdepth W
  = (Raise AssertionError, W).
Proof.
  intros H. unfold Registration.apply, bind, py_assert, ret, raise.
  destruct (Frame.take_ownership rgb); [reflexivity |].
  destruct (Frame.take_ownership depth); [reflexivity |].
  destruct (Frame.take_ownership undistored); cbn; [| reflexivity].
  destruct (Frame.take_ownership registered); cbn; [| reflexivity].
  destruct H as [H | [H | [H | [H | (b & -> & Hb)]]]]; try discriminate.
  by rewrite Hb.
Qed.

Lemma C2_apply_checks_ownership_first_witness :
  let borrowed p := {| Frame.ptr := p; Frame.take_ownership := false;
                       Frame.frame_type := 1 |} in
  let owned p := {| Frame.ptr := p; Frame.take_ownership := true;
                    Frame.frame_type := -1 |} in
  @Registration.apply reference_library {| Registration.ptr := 50%N |}
    (borrowed 10%N) (borrowed 12%N) (owned 1%N) (owned 3%N) false
    (Some (borrowed 14%N)) World0
  = (Raise AssertionError, World0).
Proof.
  intros borrowed owned.
  apply (@C2_apply_checks_ownership_first reference_library).
  do 4 right. exists (borrowed 14%N). split; reflexivity.
Defined.

(** The call goes through when every frame has the required ownership:
    the library is invoked once, with the frames' pointers. *)
Lemma apply_forwards `{L : Libfreenect2}
    (self : Registration.t) (rgb depth undistored registered : Frame.t)
    (enable_filter : bool) (W : World) :
  Frame.take_ownership rgb = false ->
  Frame.take_ownership depth = false ->
  Frame.take_ownership undistored = true ->
  Frame.take_ownership registered = true ->
  let c := Call_Registration_apply (Registration.ptr self) (Frame.ptr rgb)
             (Frame.ptr depth) (Frame.ptr undistored) (Frame.ptr registered)
             enable_filter NULL in
  Registration.apply self rgb depth undistored registered enable_filter
    None W
  = (Ret tt, {| frames := lib_apply c (frames W); brk := brk W;
                deleted := deleted W; trace := c :: trace W |}).
Proof.
  intros H1 H2 H3 H4 c. unfold Registration.apply, bind, py_assert.
  rewrite H1, H2, H3, H4. reflexivity.
Qed.

(** Two owned frames of 512 x 424 x 4 and two frames handed out by a
    listener: [apply] goes through, and [registered.width] reads 512. *)
Example apply_scenario :
  let color := {| Frame.ptr := 100%N; Frame.take_ownership := false;
                  Frame.frame_type := 1 |} in
  let depth := {| Frame.ptr := 200%N; Frame.take_ownership := false;
                  Frame.frame_type := 4 |} in
  let prog :=
    let* undistorted :=
      @Frame.new reference_library (PyInt 512) (PyInt 424) (PyInt 4)
        (PyInt (-1)) in
    let* registered :=
      @Frame.new reference_library (PyInt 512) (PyInt 424) (PyInt 4)
        (PyInt (-1)) in
    let* _ :=
      @Registration.apply reference_library {| Registration.ptr := 50%N |}
        color depth undistorted registered true None in
    Frame.get_width registered in
  fst (prog World0) = Ret 512%N
  /\ trace (snd (prog World0)) =
     [Call_Registration_apply 50%N 100%N 200%N 1%N 3%N true NULL].
Proof. split; reflexivity. Qed.

(** ** Device methods *)

Lemma invoke_forwards (d : Freenect2Device.t) (m : Freenect2Device.method)
    (W : World) :
  exists v, Freenect2Device.invoke d m W =
            (Ret v, add_call (Freenect2Device.native_of d m) W).
Proof. destruct m; eexists; reflexivity. Qed.

Lemma invoke_all_forwards (d : Freenect2Device.t)
    (ms : list Freenect2Device.method) (W : World) :
  Freenect2Device.invoke_all d ms W =
  (Ret tt,
   {| frames := frames W; brk := brk W; deleted := deleted W;
      trace := rev (map (Freenect2Device.native_of d) ms) ++ trace W |}).
Proof.
  revert W. induction ms as [| m ms IH]; intros W.
  - by destruct W.
  - cbn [Freenect2Device.invoke_all]. unfold bind.
    destruct (invoke_forwards d m W) as [v ->].
    rewrite IH. cbn. by rewrite <- app_assoc.
Qed.

(** C1, counterexample: [setColorFrameListener] after [start()] and
    [getSerialNumber] after [close()] both return, and the calls reach the
    library: they are the newest entries of the trace. *)
Lemma C1_calls_after_start_and_close_are_forwarded :
  let d := {| Freenect2Device.ptr := 4096%N |} in
  let lst := {| SyncMultiFrameListener.ptr := 100%N;
                SyncMultiFrameListener.listener_ptr_alias := 100%N |} in
  Freenect2Device.invoke_all d
    [Freenect2Device.m_start; Freenect2Device.m_setColorFrameListener lst]
    World0
  = (Ret tt,
     {| frames := ∅; brk := 0%N; deleted := [];
        trace := [Call_setColorFrameListener 4096%N 100%N;
                  Call_start 4096%N] |})
  /\ (let* _ := Freenect2Device.close d in
      Freenect2Device.getSerialNumber d) World0
     = (Ret (Returned (Call_getSerialNumber 4096%N)),
        {| frames := ∅; brk := 0%N; deleted := [];
           trace := [Call_getSerialNumber 4096%N; Call_close 4096%N] |}).
Proof. split; reflexivity. Qed.

(** C1, as amended: a [Freenect2Device] holds the device pointer and no
    lifecycle state.  After any sequence of its methods, [start()] and
    [close()] included, each of its methods returns without raising and
    forwards the call to the library. *)
Theorem C1_device_methods_always_forward
    (d : Freenect2Device.t) (history : list Freenect2Device.method)
    (m : Freenect2Device.method) (W : World) :
  exists (W' : World) (v : option returned),
    Freenect2Device.invoke_all d history W = (Ret tt, W')
    /\ Freenect2Device.invoke d m W' =
       (Ret v, {| frames := frames W'; brk := brk W'; deleted := deleted W';
                  trace := Freenect2Device.native_of d m :: trace W' |}).
Proof.
  rewrite invoke_all_forwards.
  destruct (invoke_forwards d m
              {| frames := frames W; brk := brk W; deleted := deleted W;
                 trace := rev (map (Freenect2Device.native_of d) history)
                          ++ trace W |}) as [v Hv].
  eexists _, v. split; [reflexivity | exact Hv].
Qed.

(** ** Who frees what: an invariant of the runtime *)

Section RuntimeFacts.
Context `{L : Libfreenect2}.
Import Runtime.

Lemma dealloc_obj_owns (o : obj) (W : World) :
  dealloc_obj o W =
  (Ret tt, match owns o with Some a => free a W | None => W end).
Proof.
  destruct o as [f | p]; cbn.
  - unfold Frame.__dealloc__.
    by destruct (Frame.take_ownership f && negb (Frame.ptr f =? NULL)%N).
  - unfold CpuPacketPipeline.__dealloc__.
    destruct (CpuPacketPipeline.owned_by_device p); [reflexivity |].
    by destruct (CpuPacketPipeline.pipeline p =? NULL)%N.
Qed.

Lemma owns_not_null (o : obj) (a : addr) : owns o = Some a -> a <> NULL.
Proof.
  destruct o as [f | p]; cbn.
  - destruct (Frame.take_ownership f); [| discriminate]. cbn.
    destruct (Frame.ptr f =? NULL)%N eqn:E; [discriminate |].
    intros [= <-]. by apply N.eqb_neq.
  - destruct (CpuPacketPipeline.owned_by_device p); [discriminate |]. cbn.
    destruct (CpuPacketPipeline.pipeline p =? NULL)%N eqn:E; [discriminate |].
    intros [= <-]. by apply N.eqb_neq.
Qed.

Lemma quiet_refl (W : World) : quiet W W.
Proof. split; [reflexivity | lia]. Qed.

Lemma Frame_new_effect (w h b ft : pyobj) (W W' : World) (r : res Frame.t) :
  Frame.new w h b ft W = (r, W') ->
  quiet W W'
  /\ forall f a, r = Ret f -> owns (FrameObj f) = Some a ->
                 (brk W < a <= brk W')%N.
Proof.
  unfold Frame.new, bind, lift_res.
  destruct (as_c_int ft) as [n| |];
    [| intros [= <- <-]; split; [apply quiet_refl | discriminate] ..].
  destruct (is_None w) eqn:Hw, (is_None h) eqn:Hh, (is_None b) eqn:Hb;
    try (unfold Frame.__cinit__; rewrite Hw, Hh, Hb; cbn;
         intros [= <- <-]; split; [apply quiet_refl | discriminate]).
  - apply is_None_true in Hw, Hh, Hb. subst. rewrite cinit_all_none.
    intros [= <- <-]. split; [apply quiet_refl |].
    intros f a [= <-]. discriminate.
  - unfold Frame.__cinit__. rewrite Hw, Hh, Hb. cbn [negb andb orb].
    unfold bind, py_assert, ret, on_self, on_world, modify, lift_res.
    destruct (Frame_dim w) as [cw | |]; cbn;
      try (intros [= <- <-]; split; [apply quiet_refl | discriminate]).
    destruct (Frame_dim h) as [ch | |]; cbn;
      try (intros [= <- <-]; split; [apply quiet_refl | discriminate]).
    destruct (Frame_dim b) as [cb | |]; cbn;
      try (intros [= <- <-]; split; [apply quiet_refl | discriminate]).
    intros [= <- <-]. split; [split; cbn; [reflexivity | lia] |].
    intros f a [= <-]. cbn.
    destruct (N.succ (brk W) =? NULL)%N; [discriminate |].
    intros [= <-]. lia.
Qed.

Lemma getitem_effect (key : pyobj) (fm fm' : FrameMap.t) (W W' : World)
    (r : res Frame.t) :
  FrameMap.__getitem__ key (fm, W) = (r, (fm', W')) ->
  W' = W /\ forall f, r = Ret f -> owns (FrameObj f) = None.
Proof.
  destruct (FrameMap.normalise key) as [[ft intkey] | e |] eqn:Hk.
  - destruct (normalise_intkey _ _ _ Hk) as (n & Hn & _).
    rewrite (getitem_normalised fm W _ _ _ _ Hk Hn).
    intros [= <- <- <-]. split; [reflexivity |].
    intros f [= <-]. unfold looked_up.
    by destruct (FrameMap.internal_frame_map fm !! ft).
  - rewrite (getitem_raises fm W _ _ Hk).
    intros [= <- <- <-]. split; [reflexivity | discriminate].
  - unfold FrameMap.__getitem__, bind, lift_res. rewrite Hk.
    intros [= <- <- <-]. split; [reflexivity | discriminate].
Qed.

Lemma astype_world (f : Frame.t) (dt : pyobj) (W : World) :
  snd (Frame.astype f dt W) = W.
Proof.
  unfold Frame.astype, Frame.__uint8_data, Frame.__float32_data, bind, deref,
    PyArray_SimpleNewFromData.
  destruct (negb _ && negb _); [reflexivity |].
  destruct (py_eq_type dt np_uint8);
    destruct (frames W !! Frame.ptr f); cbn [fst snd]; try reflexivity;
    destruct (array_nbytes _ _); reflexivity.
Qed.

Lemma asarray_world (f : Frame.t) (W : World) :
  snd (Frame.asarray f W) = W.
Proof.
  unfold Frame.asarray.
  destruct (_ <? 0); [reflexivity |].
  destruct (_ =? IntEnum_value Color); [apply astype_world |].
  destruct (_ || _); [apply astype_world | reflexivity].
Qed.

Lemma apply_quiet (self : Registration.t) (f1 f2 f3 f4 : Frame.t)
    (flt : bool) (big : option Frame.t) (W : World) :
  quiet W (snd (Registration.apply self f1 f2 f3 f4 flt big W)).
Proof.
  unfold Registration.apply, bind, py_assert.
  destruct (Frame.take_ownership f1); [apply quiet_refl |].
  destruct (Frame.take_ownership f2); [apply quiet_refl |].
  destruct (Frame.take_ownership f3); cbn; [| apply quiet_refl].
  destruct (Frame.take_ownership f4); cbn; [| apply quiet_refl].
  destruct big as [b |]; [destruct (Frame.take_ownership b) |]; cbn;
    split; cbn; try reflexivity; lia.
Qed.

Lemma invoke_quiet (d : Freenect2Device.t) (m : Freenect2Device.method)
    (W : World) :
  quiet W (snd (Freenect2Device.invoke d m W)).
Proof.
  destruct (invoke_forwards d m W) as [v ->]. split; cbn; [reflexivity | lia].
Qed.

Lemma open_with_opened (mk : option addr -> NativeCall) :
  opened (Freenect2.open_with mk).
Proof.
  intros po W r po' W'. unfold Freenect2.open_with.
  destruct po as [p |]; intros [= <- <- <-];
    (split; [split; cbn; [reflexivity | lia] |]); eauto.
Qed.

Lemma openDevice_opened (fn : Freenect2.t) (name : pyobj) :
  opened (Freenect2.openDevice fn name).
Proof.
  intros po W r po' W'. unfold Freenect2.openDevice, bind, lift_res.
  destruct (isinstance_int name).
  - destruct (as_c_int name);
      [apply open_with_opened
      | intros [= <- <- <-]; split; [apply quiet_refl | by left] ..].
  - destruct (isinstance_str name || isinstance_bytes name).
    + destruct (as_std_string name);
        [apply open_with_opened
        | intros [= <- <- <-]; split; [apply quiet_refl | by left] ..].
    + intros [= <- <- <-]; split; [apply quiet_refl | by left].
Qed.

Lemma openDefaultDevice_opened (fn : Freenect2.t) :
  opened (Freenect2.openDefaultDevice fn).
Proof. apply open_with_opened. Qed.

End RuntimeFacts.

Section RuntimeInvariant.
Context `{L : Libfreenect2}.
Import Runtime.

Lemma pipeline_at_Some (h : Heap) (r : nat) (p : CpuPacketPipeline.t) :
  pipeline_at h r = Some p <-> objs h !! r = Some (PipelineObj p).
Proof.
  unfold pipeline_at. destruct (objs h !! r) as [[f | q] |];
    split; intros H; try discriminate; congruence.
Qed.

Lemma open_on_effect (h : Heap) (pipeline : option nat)
    (f : M (option CpuPacketPipeline.t * World) Freenect2Device.t) :
  opened f -> effect h (open_on h pipeline f).
Proof.
  intros Hf. unfold open_on. destruct pipeline as [r |].
  - destruct (pipeline_at h r) as [p |] eqn:Hp; [| apply eff_none].
    apply pipeline_at_Some in Hp.
    destruct (f (Some p, world h)) as [res [p' W']] eqn:Hrun.
    destruct (Hf _ _ _ _ _ Hrun) as [Hq [-> | (q & [= <-] & ->)]].
    + rewrite insert_id by exact Hp. by apply (eff_world h W').
    + by apply eff_transfer.
  - destruct (f (None, world h)) as [res [p' W']] eqn:Hrun.
    destruct (Hf _ _ _ _ _ Hrun) as [Hq _]. by apply eff_world.
Qed.

Lemma step_effect (o : op) (h : Heap) : effect h (step o h).
Proof.
  destruct o; cbn [step].
  - destruct (Frame.new _ _ _ _ _) as [r W'] eqn:Hnew.
    destruct (Frame_new_effect _ _ _ _ _ _ _ Hnew) as [Hq Hfresh].
    destruct r as [f | e |]; [| by apply eff_world ..].
    apply eff_store; [exact Hq | eauto | discriminate].
  - destruct (FrameMap.__getitem__ _ _) as [r [fm' W']] eqn:Hget.
    destruct (getitem_effect _ _ _ _ _ _ Hget) as [-> Hb].
    destruct r as [f | e |]; [| apply eff_world, quiet_refl ..].
    apply eff_store; [apply quiet_refl | | discriminate].
    intros a Ha. by rewrite (Hb f eq_refl) in Ha.
  - destruct (frame_at h r); [| apply eff_none].
    rewrite astype_world. apply eff_world, quiet_refl.
  - destruct (frame_at h r); [| apply eff_none].
    rewrite asarray_world. apply eff_world, quiet_refl.
  - destruct (frame_at h rgb), (frame_at h depth), (frame_at h undistored),
      (frame_at h registered); try apply eff_none.
    destruct bigdepth as [r5 |].
    + destruct (frame_at h r5); [| apply eff_none].
      apply eff_world, apply_quiet.
    + apply eff_world, apply_quiet.
  - cbn. apply eff_store.
    + split; cbn; [reflexivity | lia].
    + intros a. cbn. destruct (N.succ _ =? NULL)%N; [discriminate |].
      intros [= <-]. lia.
    + by intros p [= <-].
  - apply open_on_effect, openDevice_opened.
  - apply open_on_effect, openDefaultDevice_opened.
  - apply eff_world, invoke_quiet.
  - destruct (objs h !! r) as [o |] eqn:Hr; [| apply eff_none].
    by apply eff_dealloc.
Qed.

Lemma effect_handed_over (a : addr) (h h' : Heap) :
  handed_over a h -> effect h h' -> handed_over a h'.
Proof.
  intros (Hd & Hb & Ho) Heff.
  destruct Heff as [W' [Hdel Hbrk] | o W' [Hdel Hbrk] Hfresh _
                   | r p W' Hr [Hdel Hbrk] | r o Hr |].
  - repeat split; cbn; [by rewrite Hdel | lia | exact Ho].
  - repeat split; cbn; [by rewrite Hdel | lia |].
    intros r o' [[<- <-] | [_ Hr]]%lookup_insert_Some; [| by eapply Ho].
    intros Hown. apply Hfresh in Hown. lia.
  - repeat split; cbn; [by rewrite Hdel | lia |].
    intros r' o' [[<- <-] | [_ Hr']]%lookup_insert_Some; [| by eapply Ho].
    discriminate.
  - rewrite dealloc_obj_owns. cbn [snd].
    repeat split.
    + destruct (owns o) as [a' |] eqn:Hown; [| exact Hd].
      cbn. apply not_elem_of_cons. split; [| exact Hd].
      intros ->. by eapply Ho.
    + by destruct (owns o).
    + cbn. intros r' o' [_ Hr']%lookup_delete_Some. by eapply Ho.
  - repeat split; assumption.
Qed.

Lemma Inv_Heap0 : Inv Heap0.
Proof.
  split; cbn.
  - constructor.
  - intros a Ha. by apply elem_of_nil in Ha.
  - intros r o a Hr. by rewrite lookup_empty in Hr.
  - intros r1 r2 o1 o2 a Hr. by rewrite lookup_empty in Hr.
  - intros r o Hr. by rewrite lookup_empty in Hr.
  - intros r p Hr. by rewrite lookup_empty in Hr.
Qed.

End RuntimeInvariant.

Section RuntimePreservation.
Context `{L : Libfreenect2}.
Import Runtime.

Lemma effect_Inv (h h' : Heap) : Inv h -> effect h h' -> Inv h'.
Proof.
  intros Hinv Heff.
  pose proof (fun a H => effect_handed_over a h h' H Heff) as Hho.
  destruct Hinv as [Hnd Hdl Hown Huniq Hrefs Htr].
  destruct Heff as [W' [Hdel Hbrk] | o W' [Hdel Hbrk] Hfresh Hflag
                   | r p W' Hr [Hdel Hbrk] | r o Hr |].
  - split; cbn.
    + by rewrite Hdel.
    + rewrite Hdel. intros a Ha. destruct (Hdl a Ha). split; [done | lia].
    + rewrite Hdel. intros r o a Hr Ho.
      destruct (Hown r o a Hr Ho). split; [lia | done].
    + exact Huniq.
    + exact Hrefs.
    + intros r p Hr Hp. apply Hho. by eapply Htr.
  - split; cbn.
    + by rewrite Hdel.
    + rewrite Hdel. intros a Ha. destruct (Hdl a Ha). split; [done | lia].
    + rewrite Hdel.
      intros r o' a [[<- <-] | [_ Hr]]%lookup_insert_Some Ho.
      * apply Hfresh in Ho. split; [lia |].
        intros Ha. destruct (Hdl a Ha). lia.
      * destruct (Hown r o' a Hr Ho). split; [lia | done].
    + intros r1 r2 o1 o2 a
        [[<- <-] | [Hn1 Hr1]]%lookup_insert_Some
        [[<- <-] | [Hn2 Hr2]]%lookup_insert_Some Ho1 Ho2.
      * reflexivity.
      * apply Hfresh in Ho1. destruct (Hown r2 o2 a Hr2 Ho2). lia.
      * apply Hfresh in Ho2. destruct (Hown r1 o1 a Hr1 Ho1). lia.
      * by eapply Huniq.
    + intros r o' [[<- <-] | [_ Hr]]%lookup_insert_Some; [lia |].
      apply Hrefs in Hr. lia.
    + intros r p [[<- Ho] | [_ Hr]]%lookup_insert_Some Hp.
      * rewrite (Hflag p Ho) in Hp. discriminate.
      * apply Hho. by eapply Htr.
  - split; cbn.
    + by rewrite Hdel.
    + rewrite Hdel. intros a Ha. destruct (Hdl a Ha). split; [done | lia].
    + rewrite Hdel.
      intros r' o' a [[<- <-] | [_ Hr']]%lookup_insert_Some Ho;
        [discriminate |].
      destruct (Hown r' o' a Hr' Ho). split; [lia | done].
    + intros r1 r2 o1 o2 a
        [[<- <-] | [Hn1 Hr1]]%lookup_insert_Some
        [[<- <-] | [Hn2 Hr2]]%lookup_insert_Some Ho1 Ho2;
        try discriminate.
      by eapply Huniq.
    + intros r' o' [[<- <-] | [_ Hr']]%lookup_insert_Some;
        by eapply Hrefs.
    + intros r' q [[<- [= <-]] | [Hne Hr']]%lookup_insert_Some Hq.
      * cbn [CpuPacketPipeline.set_owned_by_device
               CpuPacketPipeline.pipeline].
        destruct (CpuPacketPipeline.owned_by_device p) eqn:Hflag.
        { apply Hho. by eapply Htr. }
        destruct (CpuPacketPipeline.pipeline p =? NULL)%N eqn:Hnull.
        { apply N.eqb_eq in Hnull. rewrite Hnull.
          repeat split; cbn.
          - rewrite Hdel. intros Ha. by destruct (Hdl _ Ha).
          - unfold NULL. lia.
          - intros r2 o2 _ Ho2. by apply owns_not_null in Ho2. }
        assert (Hp : owns (PipelineObj p)
                     = Some (CpuPacketPipeline.pipeline p)).
        { cbn. by rewrite Hflag, Hnull. }
        destruct (Hown _ _ _ Hr Hp) as [Hle Hnd'].
        repeat split; cbn.
        -- by rewrite Hdel.
        -- lia.
        -- intros r2 o2 [[<- <-] | [Hne Hr2]]%lookup_insert_Some;
             [discriminate |].
           intros Ho2. apply Hne. by eapply Huniq.
      * apply Hho. by eapply Htr.
  - rewrite dealloc_obj_owns. cbn [snd].
    destruct (owns o) as [a |] eqn:Ho.
    + destruct (Hown _ _ _ Hr Ho) as [Hle Hnotin].
      split; cbn.
      * apply NoDup_cons. by split.
      * intros a' [-> | Ha']%elem_of_cons.
        -- split; [by eapply owns_not_null | done].
        -- by apply Hdl.
      * intros r' o' a' [Hne Hr']%lookup_delete_Some Ho'.
        destruct (Hown _ _ _ Hr' Ho') as [? ?]. split; [done |].
        apply not_elem_of_cons. split; [| done].
        intros ->. apply Hne. by eapply Huniq.
      * intros r1 r2 o1 o2 a' [_ Hr1]%lookup_delete_Some
          [_ Hr2]%lookup_delete_Some. by apply Huniq.
      * intros r' o' [_ Hr']%lookup_delete_Some. by eapply Hrefs.
      * intros r' p [_ Hr']%lookup_delete_Some Hp.
        rewrite dealloc_obj_owns, Ho in Hho. apply Hho. by eapply Htr.
    + split; cbn.
      * done.
      * done.
      * intros r' o' a' [_ Hr']%lookup_delete_Some Ho'. by eapply Hown.
      * intros r1 r2 o1 o2 a' [_ Hr1]%lookup_delete_Some
          [_ Hr2]%lookup_delete_Some. by apply Huniq.
      * intros r' o' [_ Hr']%lookup_delete_Some. by eapply Hrefs.
      * intros r' p [_ Hr']%lookup_delete_Some Hp.
        rewrite dealloc_obj_owns, Ho in Hho. apply Hho. by eapply Htr.
  - by split.
Qed.

Lemma run_app (ops1 ops2 : list op) (h : Heap) :
  run (ops1 ++ ops2) h = run ops2 (run ops1 h).
Proof. unfold run. apply foldl_app. Qed.

Lemma run_Inv (ops : list op) (h : Heap) : Inv h -> Inv (run ops h).
Proof.
  revert h. induction ops as [| o ops IH]; intros h Hinv; [exact Hinv |].
  cbn. apply IH. eapply effect_Inv; [exact Hinv | apply step_effect].
Qed.

Lemma run_handed_over (a : addr) (ops : list op) (h : Heap) :
  handed_over a h -> handed_over a (run ops h).
Proof.
  revert h. induction ops as [| o ops IH]; intros h Hh; [exact Hh |].
  cbn. apply IH. eapply effect_handed_over; [exact Hh | apply step_effect].
Qed.

End RuntimePreservation.

(** ** Frames and pipelines are freed at most once *)

Section Ownership.
Context `{L : Libfreenect2}.
Import Runtime.

Lemma Frame_new_owned (w h b ft : pyobj) (W W' : World) (f : Frame.t) :
  is_None w = false -> is_None h = false -> is_None b = false ->
  Frame.new w h b ft W = (Ret f, W') ->
  Frame.take_ownership f = true
  /\ Frame.ptr f = N.succ (brk W)
  /\ is_Some (frames W' !! Frame.ptr f).
Proof.
  intros Hw Hh Hb. unfold Frame.new, bind, lift_res.
  destruct (as_c_int ft) as [n | |]; try discriminate.
  unfold Frame.__cinit__. rewrite Hw, Hh, Hb. cbn [negb andb orb].
  unfold bind, py_assert, ret, on_self, on_world, modify, lift_res.
  destruct (Frame_dim w) as [cw | |]; cbn; try discriminate.
  destruct (Frame_dim h) as [ch | |]; cbn; try discriminate.
  destruct (Frame_dim b) as [cb | |]; cbn; try discriminate.
  intros [= <- <-]. cbn. repeat split.
  rewrite lookup_insert_eq. eauto.
Qed.

Lemma dealloc_owned (f : Frame.t) (W : World) :
  Frame.take_ownership f = true -> Frame.ptr f <> NULL ->
  Frame.__dealloc__ f W = del (Frame.ptr f) W.
Proof.
  intros Ht Hp. unfold Frame.__dealloc__. rewrite Ht.
  apply N.eqb_neq in Hp. by rewrite Hp.
Qed.

Lemma dealloc_borrowed (f : Frame.t) (W : World) :
  Frame.take_ownership f = false -> Frame.__dealloc__ f W = (Ret tt, W).
Proof. intros Ht. unfold Frame.__dealloc__. by rewrite Ht. Qed.

(** The log of [del] only grows. *)
Lemma effect_deleted (a : addr) (h h' : Heap) :
  effect h h' -> a ∈ deleted (world h) -> a ∈ deleted (world h').
Proof.
  intros Heff Ha.
  destruct Heff as [W' [Hdel _] | o W' [Hdel _] _ _
                   | r p W' _ [Hdel _] | r o _ |]; cbn;
    rewrite ?Hdel; try assumption.
  rewrite dealloc_obj_owns. destruct (owns o); cbn; [| assumption].
  by apply elem_of_cons; right.
Qed.

Lemma run_deleted (a : addr) (ops : list op) (h : Heap) :
  a ∈ deleted (world h) -> a ∈ deleted (world (run ops h)).
Proof.
  revert h. induction ops as [| o ops IH]; intros h Ha; [exact Ha |].
  cbn. apply IH. eapply effect_deleted; [apply step_effect | exact Ha].
Qed.

Lemma count_occ_once (a : addr) (l : list addr) :
  NoDup l -> a ∈ l -> count_occ N.eq_dec l a = 1%nat.
Proof.
  intros Hnd Ha.
  apply list_elem_of_In in Ha.
  apply (count_occ_In N.eq_dec) in Ha.
  apply NoDup_ListNoDup in Hnd.
  pose proof (proj1 (List.NoDup_count_occ N.eq_dec l) Hnd a). lia.
Qed.

Lemma frame_at_Some (h : Heap) (r : nat) (f : Frame.t) :
  frame_at h r = Some f <-> objs h !! r = Some (FrameObj f).
Proof.
  unfold frame_at. destruct (objs h !! r) as [[g | q] |];
    split; intros H; try discriminate; congruence.
Qed.

(** Deallocating a live frame that owns its buffer frees the buffer, and
    the buffer stays freed exactly once whatever the program does next. *)
Lemma owned_frame_freed_once (h : Heap) (r : nat) (f : Frame.t)
    (ops : list op) :
  Inv h ->
  frame_at h r = Some f ->
  Frame.take_ownership f = true -> Frame.ptr f <> NULL ->
  count_occ N.eq_dec (deleted (world h)) (Frame.ptr f) = 0%nat
  /\ count_occ N.eq_dec
       (deleted (world (run ops (step (Dealloc r) h)))) (Frame.ptr f)
     = 1%nat.
Proof.
  intros Hinv Hr%frame_at_Some Ht Hp.
  assert (Ho : owns (FrameObj f) = Some (Frame.ptr f)).
  { cbn. rewrite Ht. apply N.eqb_neq in Hp. by rewrite Hp. }
  split.
  - apply count_occ_not_In. rewrite <- list_elem_of_In.
    by apply (inv_owned h Hinv r _ _ Hr Ho).
  - apply count_occ_once.
    + apply run_Inv. eapply effect_Inv; [exact Hinv | apply step_effect].
    + apply run_deleted. cbn [step]. rewrite Hr. cbn [world].
      rewrite dealloc_obj_owns, Ho. cbn. by apply elem_of_cons; left.
Qed.

Lemma openDevice_returns (fn : Freenect2.t) (name : pyobj)
    (p : CpuPacketPipeline.t) (W W' : World) (d : Freenect2Device.t)
    (po' : option CpuPacketPipeline.t) :
  Freenect2.openDevice fn name (Some p, W) = (Ret d, (po', W')) ->
  po' = Some (CpuPacketPipeline.set_owned_by_device true p)
  /\ deleted W' = deleted W.
Proof.
  unfold Freenect2.openDevice, bind, lift_res.
  destruct (isinstance_int name).
  - destruct (as_c_int name); try discriminate.
    unfold Freenect2.__openDevice__intidx, Freenect2.open_with.
    by intros [= <- <- <-].
  - destruct (isinstance_str name || isinstance_bytes name);
      [| discriminate].
    destruct (as_std_string name); try discriminate.
    unfold Freenect2.__openDevice__stridx, Freenect2.open_with.
    by intros [= <- <- <-].
Qed.

End Ownership.

(** C4: a [Frame] constructed with [width], [height] and
    [bytes_per_pixel] owns a native frame allocated for it, and its
    [__dealloc__] is one [del] of that frame; the [__dealloc__] of a
    [Frame] constructed without them frees nothing, whatever pointer the
    frame was bound to since.  In every program the module passes no
    address to [del] twice, and the buffer of an owning frame, not freed
    while the frame lives, is in the log of frees exactly once from its
    deallocation on. *)
Theorem C4_frame_buffer_freed_once `{L : Libfreenect2} :
  (forall (w h b ft : pyobj) (W W' : World) (f : Frame.t),
      is_None w = false -> is_None h = false -> is_None b = false ->
      Frame.new w h b ft W = (Ret f, W') ->
      Frame.take_ownership f = true
      /\ Frame.ptr f <> NULL
      /\ is_Some (frames W' !! Frame.ptr f)
      /\ forall W'' : World,
           Frame.__dealloc__ f W'' = del (Frame.ptr f) W'')
  /\ (forall (ft : pyobj) (W W' : World) (f : Frame.t),
         Frame.new PyNone PyNone PyNone ft W = (Ret f, W') ->
         Frame.take_ownership f = false
         /\ forall (p : addr) (W'' : World),
              Frame.__dealloc__ (Frame.set_ptr p f) W'' = (Ret tt, W''))
  /\ (forall ops : list Runtime.op,
         NoDup (deleted (Runtime.world (Runtime.run ops Runtime.Heap0))))
  /\ (forall (ops ops' : list Runtime.op) (r : nat) (f : Frame.t),
         Runtime.frame_at (Runtime.run ops Runtime.Heap0) r = Some f ->
         Frame.take_ownership f = true -> Frame.ptr f <> NULL ->
         count_occ N.eq_dec
           (deleted (Runtime.world (Runtime.run ops Runtime.Heap0)))
           (Frame.ptr f) = 0%nat
         /\ count_occ N.eq_dec
              (deleted
                 (Runtime.world
                    (Runtime.run ops'
                       (Runtime.step (Runtime.Dealloc r)
                          (Runtime.run ops Runtime.Heap0)))))
              (Frame.ptr f) = 1%nat).
Proof.
  split; [| split; [| split]].
  - intros w h b ft W W' f Hw Hh Hb Hnew.
    destruct (Frame_new_owned _ _ _ _ _ _ _ Hw Hh Hb Hnew)
      as (Ht & Hp & Hlive).
    assert (Hnn : Frame.ptr f <> NULL).
    { rewrite Hp. unfold NULL. lia. }
    repeat split; try assumption.
    intros W''. by apply dealloc_owned.
  - intros ft W W' f Hnew.
    assert (Ht : Frame.take_ownership f = false).
    { revert Hnew. unfold Frame.new, bind, lift_res.
      destruct (as_c_int ft); try discriminate.
      rewrite cinit_all_none. by intros [= <- <-]. }
    split; [exact Ht |].
    intros p W''. by apply dealloc_borrowed.
  - intros ops. apply inv_nodup, run_Inv, Inv_Heap0.
  - intros ops ops' r f Hr Ht Hp.
    apply owned_frame_freed_once; try assumption.
    apply run_Inv, Inv_Heap0.
Qed.

Lemma C4_frame_buffer_freed_once_witness :
  let owned := {| Frame.ptr := 1%N; Frame.take_ownership := true;
                  Frame.frame_type := -1 |} in
  let borrowed := {| Frame.ptr := NULL; Frame.take_ownership := false;
                     Frame.frame_type := 1 |} in
  let prog := [Runtime.New_Frame (PyInt 512) (PyInt 424) (PyInt 4)
                 (PyInt (-1))] in
  let rest := [Runtime.New_Frame (PyInt 512) (PyInt 424) (PyInt 4)
                 (PyInt (-1));
               Runtime.Dealloc 0; Runtime.Dealloc 1] in
  (forall W'' : World,
      @Frame.__dealloc__ owned W'' = del 1%N W'')
  /\ (forall (p : addr) (W'' : World),
         @Frame.__dealloc__ (Frame.set_ptr p borrowed) W'' = (Ret tt, W''))
  /\ count_occ N.eq_dec
       (deleted
          (Runtime.world
             (@Runtime.run reference_library rest
                (@Runtime.step reference_library (Runtime.Dealloc 0)
                   (@Runtime.run reference_library prog Runtime.Heap0)))))
       1%N = 1%nat.
Proof.
  intros owned borrowed prog rest.
  destruct (@C4_frame_buffer_freed_once reference_library)
    as (H1 & H2 & _ & H4).
  split; [| split].
  - apply (H1 (PyInt 512) (PyInt 424) (PyInt 4) (PyInt (-1)) World0
              (snd (@Frame.new reference_library (PyInt 512) (PyInt 424)
                      (PyInt 4) (PyInt (-1)) World0)) owned);
      reflexivity.
  - apply (H2 (PyInt 1) World0 World0 borrowed). reflexivity.
  - apply (H4 prog rest 0%nat owned); [reflexivity | reflexivity |].
    discriminate.
Defined.

(** C3: every entry point that opens a device with a pipeline and returns
    marks the pipeline object [owned_by_device], also in the store where
    the caller's reference finds it; the [__dealloc__] of a marked
    pipeline frees nothing; and in every program, once a stored pipeline
    is marked, the module never passes its native pipeline to [del],
    whatever follows, the deallocation of the pipeline object included.
    The native pipeline is thus left to the device alone to free. *)
Theorem C3_pipeline_ownership_transfer `{L : Libfreenect2} :
  (forall (fn : Freenect2.t) (name : pyobj) (p : CpuPacketPipeline.t)
          (W W' : World) (d : Freenect2Device.t)
          (po' : option CpuPacketPipeline.t),
      Freenect2.openDevice fn name (Some p, W) = (Ret d, (po', W')) ->
      po' = Some (CpuPacketPipeline.set_owned_by_device true p)
      /\ deleted W' = deleted W)
  /\ (forall (fn : Freenect2.t) (p : CpuPacketPipeline.t) (W : World),
         exists d : Freenect2Device.t,
           Freenect2.openDefaultDevice fn (Some p, W) =
           (Ret d,
            (Some (CpuPacketPipeline.set_owned_by_device true p),
             {| frames := frames W; brk := brk W; deleted := deleted W;
                trace := Call_openDefaultDevice (Freenect2.ptr fn)
                           (Some (CpuPacketPipeline.pipeline_ptr_alias p))
                         :: trace W |})))
  /\ (forall (p : CpuPacketPipeline.t) (W : World),
         CpuPacketPipeline.owned_by_device p = true ->
         CpuPacketPipeline.__dealloc__ p W = (Ret tt, W))
  /\ (forall (h : Runtime.Heap) (r : nat) (p : CpuPacketPipeline.t)
             (fn : Freenect2.t),
         Runtime.pipeline_at h r = Some p ->
         Runtime.pipeline_at
           (Runtime.step (Runtime.OpenDefaultDevice fn (Some r)) h) r
         = Some (CpuPacketPipeline.set_owned_by_device true p))
  /\ (forall (h : Runtime.Heap) (r : nat) (p : CpuPacketPipeline.t)
             (fn : Freenect2.t) (name : pyobj),
         Runtime.pipeline_at h r = Some p ->
         is_Ret (fst (Freenect2.openDevice fn name
                        (Some p, Runtime.world h))) = true ->
         Runtime.pipeline_at
           (Runtime.step (Runtime.OpenDevice fn name (Some r)) h) r
         = Some (CpuPacketPipeline.set_owned_by_device true p))
  /\ (forall (ops ops' : list Runtime.op) (r : nat)
             (p : CpuPacketPipeline.t),
         Runtime.pipeline_at (Runtime.run ops Runtime.Heap0) r = Some p ->
         CpuPacketPipeline.owned_by_device p = true ->
         CpuPacketPipeline.pipeline p
         ∉ deleted (Runtime.world
                      (Runtime.run ops' (Runtime.run ops Runtime.Heap0)))).
Proof.
  split; [| split; [| split; [| split; [| split]]]].
  - intros fn name p W W' d po'. apply openDevice_returns.
  - intros fn p W. eexists. reflexivity.
  - intros p W Hp. unfold CpuPacketPipeline.__dealloc__. by rewrite Hp.
  - intros h r p fn Hp. cbn [Runtime.step]. unfold Runtime.open_on.
    rewrite Hp. cbn. unfold Runtime.pipeline_at. cbn.
    by rewrite lookup_insert_eq.
  - intros h r p fn name Hp Hret. cbn [Runtime.step].
    unfold Runtime.open_on. rewrite Hp.
    destruct (Freenect2.openDevice fn name (Some p, Runtime.world h))
      as [res [po' W']] eqn:Hopen.
    destruct res as [d | |]; try discriminate.
    destruct (openDevice_returns _ _ _ _ _ _ _ Hopen) as [-> _].
    unfold Runtime.pipeline_at. cbn. by rewrite lookup_insert_eq.
  - intros ops ops' r p Hp%pipeline_at_Some Hflag.
    apply (run_handed_over _ ops').
    eapply inv_transferred; [| exact Hp | exact Hflag].
    apply run_Inv, Inv_Heap0.
Qed.

Lemma C3_pipeline_ownership_transfer_witness :
  let fn := {| Freenect2.ptr := 9000%N |} in
  let p := {| CpuPacketPipeline.pipeline_ptr_alias := 1%N;
              CpuPacketPipeline.owned_by_device := false;
              CpuPacketPipeline.pipeline := 1%N |} in
  let q := CpuPacketPipeline.set_owned_by_device true p in
  let before := [Runtime.New_CpuPacketPipeline;
                 Runtime.OpenDevice fn (PyInt 0) (Some 0%nat)] in
  let after := [Runtime.Dealloc 0; Runtime.New_CpuPacketPipeline;
                Runtime.Dealloc 1] in
  fst (snd (@Freenect2.openDevice reference_library fn (PyBytes "0123")
              (Some p, World0)))
  = Some q
  /\ CpuPacketPipeline.__dealloc__ q World0 = (Ret tt, World0)
  /\ Runtime.pipeline_at
       (@Runtime.step reference_library
          (Runtime.OpenDevice fn (PyInt 0) (Some 0%nat))
          (@Runtime.run reference_library [Runtime.New_CpuPacketPipeline]
             Runtime.Heap0)) 0
     = Some q
  /\ 1%N ∉ deleted (Runtime.world
                      (@Runtime.run reference_library after
                         (@Runtime.run reference_library before
                            Runtime.Heap0))).
Proof.
  intros fn p q before after.
  destruct (@C3_pipeline_ownership_transfer reference_library)
    as (H1 & _ & H3 & _ & H5 & H6).
  split; [| split; [| split]].
  - refine (proj1 (H1 fn (PyBytes "0123") p World0
                     (snd (snd (@Freenect2.openDevice reference_library fn
                                  (PyBytes "0123") (Some p, World0))))
                     {| Freenect2Device.ptr := 4096%N |} _ _)).
    reflexivity.
  - apply H3. reflexivity.
  - apply (H5 (@Runtime.run reference_library [Runtime.New_CpuPacketPipeline]
                 Runtime.Heap0) 0%nat p fn (PyInt 0)); reflexivity.
  - apply (H6 before after 0%nat q); reflexivity.
Defined.

(** * Further properties of the module *)

(** ** Keys of a lookup *)

Lemma lower_ascii_idempotent (c : ascii) :
  lower_ascii (lower_ascii c) = lower_ascii c.
Proof. by destruct c as [[] [] [] [] [] [] [] []]. Qed.

Lemma lower_idempotent (s : string) : lower (lower s) = lower s.
Proof.
  induction s as [| c s IH]; [reflexivity |].
  cbn [lower]. by rewrite lower_ascii_idempotent, IH.
Qed.

Lemma normalise_lower `{L : Libfreenect2} (s : string) :
  FrameMap.normalise (PyStr (lower s)) = FrameMap.normalise (PyStr s).
Proof.
  unfold FrameMap.normalise.
  change (isinstance_int (PyStr (lower s))
          || isinstance_FrameType (PyStr (lower s))) with false.
  change (isinstance_int (PyStr s) || isinstance_FrameType (PyStr s))
    with false.
  cbv iota. unfold str_to_frame_type, str_to_int_frame_type.
  by rewrite lower_idempotent.
Qed.

(** X1: a string key is matched without regard to case: the lookup by
    [s] and the lookup by [s.lower()] have the same outcome and leave the
    same map, whether they return a frame or raise. *)
Theorem X1_string_keys_ignore_case `{L : Libfreenect2}
    (fm : FrameMap.t) (W : World) (s : string) :
  FrameMap.__getitem__ (PyStr s) (fm, W) =
  FrameMap.__getitem__ (PyStr (lower s)) (fm, W).
Proof.
  unfold FrameMap.__getitem__, bind, lift_res.
  by rewrite normalise_lower.
Qed.

(** X2: a lookup that returns changes nothing but the map, to which it
    adds at most the null entry of the channel asked for: the entries
    the map had are kept, its ownership flag too, and repeating the
    lookup returns the same frame and leaves the map as the first one
    left it. *)
Theorem X2_lookup_is_idempotent `{L : Libfreenect2}
    (fm fm' : FrameMap.t) (W W' : World) (key : pyobj) (f : Frame.t) :
  FrameMap.__getitem__ key (fm, W) = (Ret f, (fm', W')) ->
  W' = W
  /\ FrameMap.take_ownership fm' = FrameMap.take_ownership fm
  /\ (forall k p, FrameMap.internal_frame_map fm !! k = Some p ->
                  FrameMap.internal_frame_map fm' !! k = Some p)
  /\ (forall k p, FrameMap.internal_frame_map fm' !! k = Some p ->
                  FrameMap.internal_frame_map fm !! k = Some p
                  \/ (FrameMap.internal_frame_map fm !! k = None
                      /\ p = NULL))
  /\ FrameMap.__getitem__ key (fm', W) = (Ret f, (fm', W)).
Proof.
  destruct (FrameMap.normalise key) as [[ft intkey] | e |] eqn:Hk.
  - destruct (normalise_intkey _ _ _ Hk) as (n & Hn & _).
    rewrite (getitem_normalised fm W _ _ _ _ Hk Hn).
    rewrite (getitem_normalised fm' W _ _ _ _ Hk Hn).
    unfold looked_up.
    destruct (FrameMap.internal_frame_map fm !! ft) as [q |] eqn:Hq.
    + intros [= <- <- <-]. rewrite Hq. repeat split; auto.
    + intros [= <- <- <-]. cbn.
      rewrite lookup_insert_eq. repeat split.
      * intros k p Hkp. rewrite lookup_insert_ne; [done |].
        intros <-. congruence.
      * intros k p [[<- <-] | [_ Hkp]]%lookup_insert_Some; auto.
  - rewrite (getitem_raises fm W _ _ Hk). discriminate.
  - unfold FrameMap.__getitem__, bind, lift_res. rewrite Hk. discriminate.
Qed.

Lemma X2_lookup_is_idempotent_witness :
  let fm := {| FrameMap.internal_frame_map := {[ libfreenect2_Color := 16%N ]};
               FrameMap.take_ownership := true |} in
  let fm' := FrameMap.set_internal_frame_map
               (<[libfreenect2_Ir := NULL]> {[ libfreenect2_Color := 16%N ]})
               fm in
  let f := {| Frame.ptr := NULL; Frame.take_ownership := false;
              Frame.frame_type := 2 |} in
  FrameMap.internal_frame_map fm' !! libfreenect2_Color = Some 16%N
  /\ @FrameMap.__getitem__ reference_library (PyStr "IR") (fm', World0)
     = (Ret f, (fm', World0)).
Proof.
  intros fm fm' f.
  destruct (@X2_lookup_is_idempotent reference_library fm fm' World0 World0
              (PyStr "IR") f eq_refl) as (_ & _ & H3 & _ & H5).
  split; [apply H3; reflexivity | exact H5].
Defined.

(** X3: an int key outside the range of a C [int] fails with
    [OverflowError], before the key is compared with any channel; the
    map is unchanged. *)
Theorem X3_int_key_out_of_range `{L : Libfreenect2}
    (fm : FrameMap.t) (W : World) (z : Z) :
  z < INT_MIN \/ INT_MAX < z ->
  FrameMap.__getitem__ (PyInt z) (fm, W) = (Raise OverflowError, (fm, W)).
Proof.
  intros Hz. apply getitem_raises.
  unfold FrameMap.normalise.
  change (isinstance_int (PyInt z) || isinstance_FrameType (PyInt z))
    with true. cbv iota.
  unfold as_c_int, as_c_int_of.
  destruct ((INT_MIN <=? z) && (z <=? INT_MAX)) eqn:E; [| reflexivity].
  apply andb_true_iff in E as [?%Z.leb_le ?%Z.leb_le]. lia.
Qed.

Lemma X3_int_key_out_of_range_witness :
  let fm := FrameMap.__cinit__ false in
  @FrameMap.__getitem__ reference_library (PyInt (2 ^ 31)) (fm, World0)
  = (Raise OverflowError, (fm, World0)).
Proof.
  intros fm. apply (@X3_int_key_out_of_range reference_library).
  right. unfold INT_MAX. lia.
Defined.

(** X4: when the three members of [FrameType] have different values
    that fit a C [int], every form of key reaches the channel's own
    entry: the member, its name and its value are normalised to the tag
    of that channel, so a lookup returns the pointer stored under it. *)
Theorem X4_each_channel_has_its_own_entry `{L : Libfreenect2}
    (fm : FrameMap.t) (W : World) (m : FrameType) (p : addr) :
  (forall m', INT_MIN <= IntEnum_value m' <= INT_MAX) ->
  IntEnum_value Color <> IntEnum_value Ir ->
  IntEnum_value Color <> IntEnum_value Depth ->
  IntEnum_value Ir <> IntEnum_value Depth ->
  FrameMap.internal_frame_map fm !! tag m = Some p ->
  let found :=
    (Ret {| Frame.ptr := p; Frame.take_ownership := false;
            Frame.frame_type := IntEnum_value m |}, (fm, W)) in
  intenum_to_frame_type (IntEnum_value m) = Ret (tag m)
  /\ str_to_frame_type (canonical m) = Ret (tag m)
  /\ FrameMap.__getitem__ (PyEnum m) (fm, W) = found
  /\ FrameMap.__getitem__ (PyStr (canonical m)) (fm, W) = found
  /\ FrameMap.__getitem__ (PyInt (IntEnum_value m)) (fm, W) = found.
Proof.
  intros Hr H1 H2 H3 Hp found.
  assert (Ht : intenum_to_frame_type (IntEnum_value m) = Ret (tag m)).
  { unfold intenum_to_frame_type.
    destruct m; cbn [tag]; rewrite ?Z.eqb_refl; try reflexivity.
    - apply not_eq_sym, Z.eqb_neq in H1. by rewrite H1.
    - apply not_eq_sym, Z.eqb_neq in H2, H3. by rewrite H2, H3. }
  split; [exact Ht |]. split.
  - unfold str_to_frame_type.
    by rewrite str_to_int_canonical, (as_c_int_PyEnum m (Hr m)).
  - pose proof (as_c_int_PyEnum m (Hr m)) as He.
    pose proof (as_c_int_PyInt _ (Hr m)) as Hi.
    assert (Hfound :
              (Ret (fst (looked_up fm (tag m) (IntEnum_value m))),
               (snd (looked_up fm (tag m) (IntEnum_value m)), W)) = found).
    { unfold looked_up, found. by rewrite Hp. }
    rewrite <- Hfound. repeat split.
    + apply (getitem_normalised fm W (PyEnum m) (PyEnum m)); [| exact He].
      unfold FrameMap.normalise. cbn [isinstance_int orb].
      by rewrite He, Ht.
    + apply (getitem_normalised fm W (PyStr (canonical m)) (PyEnum m));
        [| exact He].
      unfold FrameMap.normalise.
      change (isinstance_int (PyStr (canonical m))
              || isinstance_FrameType (PyStr (canonical m))) with false.
      cbv iota. unfold str_to_frame_type.
      by rewrite str_to_int_canonical, He, Ht.
    + apply (getitem_normalised fm W (PyInt (IntEnum_value m))
               (PyInt (IntEnum_value m))); [| exact Hi].
      unfold FrameMap.normalise. cbn [isinstance_int orb].
      by rewrite Hi, Ht.
Qed.

Lemma X4_each_channel_has_its_own_entry_witness :
  let fm := {| FrameMap.internal_frame_map :=
                 <[libfreenect2_Color := 10%N]>
                   (<[libfreenect2_Ir := 20%N]>
                      {[ libfreenect2_Depth := 30%N ]});
               FrameMap.take_ownership := false |} in
  @FrameMap.__getitem__ reference_library (PyStr "depth") (fm, World0)
  = (Ret {| Frame.ptr := 30%N; Frame.take_ownership := false;
            Frame.frame_type := 4 |}, (fm, World0)).
Proof.
  intros fm.
  apply (@X4_each_channel_has_its_own_entry reference_library fm World0
           Depth 30%N); try discriminate; try reflexivity.
  intros []; unfold INT_MIN, INT_MAX; cbn; lia.
Defined.

(** X5: a frame returned by a lookup never owns what it wraps: its
    pointer is the one stored in the map for some channel, or null, and
    its [__dealloc__] frees nothing. *)
Theorem X5_looked_up_frames_free_nothing `{L : Libfreenect2}
    (fm fm' : FrameMap.t) (W W' : World) (key : pyobj) (f : Frame.t) :
  FrameMap.__getitem__ key (fm, W) = (Ret f, (fm', W')) ->
  Frame.take_ownership f = false
  /\ (Frame.ptr f = NULL
      \/ exists k, FrameMap.internal_frame_map fm !! k = Some (Frame.ptr f))
  /\ forall W'' : World, Frame.__dealloc__ f W'' = (Ret tt, W'').
Proof.
  destruct (FrameMap.normalise key) as [[ft intkey] | e |] eqn:Hk.
  - destruct (normalise_intkey _ _ _ Hk) as (n & Hn & _).
    rewrite (getitem_normalised fm W _ _ _ _ Hk Hn). unfold looked_up.
    destruct (FrameMap.internal_frame_map fm !! ft) as [q |] eqn:Hq;
      intros [= <- <- <-]; cbn; repeat split; eauto.
  - rewrite (getitem_raises fm W _ _ Hk). discriminate.
  - unfold FrameMap.__getitem__, bind, lift_res. rewrite Hk. discriminate.
Qed.

Lemma X5_looked_up_frames_free_nothing_witness :
  let fm := {| FrameMap.internal_frame_map := {[ libfreenect2_Color := 16%N ]};
               FrameMap.take_ownership := true |} in
  let f := {| Frame.ptr := 16%N; Frame.take_ownership := false;
              Frame.frame_type := 1 |} in
  Frame.take_ownership f = false
  /\ Frame.__dealloc__ f World0 = (Ret tt, World0).
Proof.
  intros fm f.
  destruct (@X5_looked_up_frames_free_nothing reference_library fm fm World0
              World0 (PyInt 1) f eq_refl) as (H1 & _ & H3).
  split; [exact H1 | apply H3].
Defined.

(** X6: the lookup of a recognised channel that has no entry hands out a
    frame around the null pointer without any check, and so does every
    later use: where no native frame lives at null, reading a property
    of that frame or asking for a view dereferences the null pointer
    instead of raising. *)
Theorem X6_frame_of_unset_channel_faults `{L : Libfreenect2}
    (fm : FrameMap.t) (W : World) (key intkey : pyobj)
    (ft : LibFreenect2FrameType) :
  FrameMap.normalise key = Ret (ft, intkey) ->
  FrameMap.internal_frame_map fm !! ft = None ->
  frames W !! NULL = None ->
  exists (f : Frame.t) (fm' : FrameMap.t),
    FrameMap.__getitem__ key (fm, W) = (Ret f, (fm', W))
    /\ Frame.get_width f W = (Fault, W)
    /\ Frame.get_height f W = (Fault, W)
    /\ Frame.get_bytes_per_pixel f W = (Fault, W)
    /\ Frame.astype f (PyType np_uint8) W = (Fault, W)
    /\ Frame.astype f (PyType np_float32) W = (Fault, W).
Proof.
  intros Hk Hnone Hnull.
  destruct (normalise_intkey _ _ _ Hk) as (n & Hn & _).
  eexists _, _. split.
  - rewrite (getitem_normalised fm W _ _ _ _ Hk Hn).
    unfold looked_up. rewrite Hnone. reflexivity.
  - cbn [fst].
    unfold Frame.get_width, Frame.get_height, Frame.get_bytes_per_pixel,
      Frame.astype, Frame.__uint8_data, Frame.__float32_data, bind, deref.
    cbn. rewrite Hnull. repeat split; reflexivity.
Qed.

Lemma X6_frame_of_unset_channel_faults_witness :
  exists (f : Frame.t) (fm' : FrameMap.t),
    @FrameMap.__getitem__ reference_library (PyStr "ir")
      (FrameMap.__cinit__ false, World0) = (Ret f, (fm', World0))
    /\ Frame.get_width f World0 = (Fault, World0)
    /\ Frame.get_height f World0 = (Fault, World0)
    /\ Frame.get_bytes_per_pixel f World0 = (Fault, World0)
    /\ Frame.astype f (PyType np_uint8) World0 = (Fault, World0)
    /\ Frame.astype f (PyType np_float32) World0 = (Fault, World0).
Proof.
  apply (@X6_frame_of_unset_channel_faults reference_library
           (FrameMap.__cinit__ false) World0 (PyStr "ir") (PyEnum Ir)
           libfreenect2_Ir); reflexivity.
Defined.

(** ** Deallocation of a FrameMap *)

Lemma dealloc_keys (m : gmap LibFreenect2FrameType addr)
    (ks : list LibFreenect2FrameType) (W : World) :
  foldr (fun k rest =>
           match m !! k with
           | Some p =>
               if negb (p =? NULL)%N
               then bind (del p) (fun _ => rest)
               else rest
           | None => rest
           end)
        (ret tt) ks W
  = (Ret tt,
     foldl (fun W p => free p W) W
       (filter (fun p => p <> NULL) (omap (fun k => m !! k) ks))).
Proof.
  revert W. induction ks as [| k ks IH]; intros W; [reflexivity |].
  cbn [foldr omap list_omap].
  destruct (m !! k) as [p |]; cbn [omap list_omap].
  - destruct (p =? NULL)%N eqn:E; cbn [negb].
    + apply N.eqb_eq in E. rewrite filter_cons_False by (intros H; by apply H).
      apply IH.
    + apply N.eqb_neq in E. rewrite filter_cons_True by exact E.
      unfold bind, del, modify. cbn [foldl]. apply IH.
  - apply IH.
Qed.

Lemma foldl_free (ps : list addr) (W : World) :
  deleted (foldl (fun W p => free p W) W ps) = rev ps ++ deleted W
  /\ brk (foldl (fun W p => free p W) W ps) = brk W
  /\ trace (foldl (fun W p => free p W) W ps) = trace W
  /\ frames (foldl (fun W p => free p W) W ps)
     = foldl (fun fr p => delete p fr) (frames W) ps.
Proof.
  revert W. induction ps as [| p ps IH]; intros W; [done |].
  cbn [foldl rev]. destruct (IH (free p W)) as (H1 & H2 & H3 & H4).
  rewrite H1, H2, H3, H4. cbn. by rewrite <- app_assoc.
Qed.

(** X7: the [__dealloc__] of a [FrameMap] frees nothing unless the map
    was built with [take_ownership=True]; then it frees the frames of
    its non-null entries, one [del] each in the order of the keys, skips
    the null entries, and does nothing else. *)
Theorem X7_FrameMap_dealloc `{L : Libfreenect2} (fm : FrameMap.t) (W : World) :
  (FrameMap.take_ownership fm = false ->
   FrameMap.__dealloc__ fm W = (Ret tt, W))
  /\ (FrameMap.take_ownership fm = true ->
      exists W' : World,
        FrameMap.__dealloc__ fm W = (Ret tt, W')
        /\ deleted W' = rev (entry_pointers fm) ++ deleted W
        /\ frames W'
           = foldl (fun fr p => delete p fr) (frames W) (entry_pointers fm)
        /\ brk W' = brk W /\ trace W' = trace W).
Proof.
  split; intros Ht; unfold FrameMap.__dealloc__; rewrite Ht; [reflexivity |].
  eexists. split.
  - apply (dealloc_keys (FrameMap.internal_frame_map fm) FrameMap.key_order).
  - fold (entry_pointers fm).
    destruct (foldl_free (entry_pointers fm) W) as (H1 & H2 & H3 & H4).
    by rewrite H1, H2, H3, H4.
Qed.

Lemma X7_FrameMap_dealloc_witness :
  let m := <[libfreenect2_Color := 10%N]>
             (<[libfreenect2_Ir := NULL]> {[ libfreenect2_Depth := 30%N ]}) in
  FrameMap.__dealloc__
    {| FrameMap.internal_frame_map := m; FrameMap.take_ownership := false |}
    World0 = (Ret tt, World0)
  /\ exists W' : World,
       FrameMap.__dealloc__
         {| FrameMap.internal_frame_map := m;
            FrameMap.take_ownership := true |} World0 = (Ret tt, W')
       /\ deleted W' = [30%N; 10%N].
Proof.
  intros m. split.
  - apply (@X7_FrameMap_dealloc reference_library). reflexivity.
  - destruct (proj2 (@X7_FrameMap_dealloc reference_library
                       {| FrameMap.internal_frame_map := m;
                          FrameMap.take_ownership := true |} World0)
                eq_refl) as (W' & H1 & H2 & _).
    exists W'. split; [exact H1 | exact H2].
Defined.

(** X8: an owning [FrameMap] whose entries are all null, as the library
    leaves them when [release] nulls what it frees, has nothing left to
    free: its [__dealloc__] leaves the world as it is. *)
Theorem X8_released_map_frees_nothing `{L : Libfreenect2}
    (fm : FrameMap.t) (W : World) :
  (forall k p, FrameMap.internal_frame_map fm !! k = Some p -> p = NULL) ->
  FrameMap.__dealloc__ fm W = (Ret tt, W).
Proof.
  intros Hnull. unfold FrameMap.__dealloc__.
  destruct (FrameMap.take_ownership fm); [| reflexivity].
  rewrite (dealloc_keys (FrameMap.internal_frame_map fm) FrameMap.key_order).
  destruct (filter _ _) as [| p ps] eqn:E; [reflexivity |].
  assert (Hp : p ∈ p :: ps) by (apply elem_of_cons; by left).
  rewrite <- E in Hp.
  apply list_elem_of_filter in Hp as [Hne Hp].
  apply list_elem_of_omap in Hp as (k & _ & Hk).
  exfalso. apply Hne. by eapply Hnull.
Qed.

Lemma X8_released_map_frees_nothing_witness :
  let fm := {| FrameMap.internal_frame_map :=
                 <[libfreenect2_Color := 10%N]>
                   {[ libfreenect2_Depth := 30%N ]};
               FrameMap.take_ownership := true |} in
  let lst := {| SyncMultiFrameListener.ptr := 100%N;
                SyncMultiFrameListener.listener_ptr_alias := 100%N |} in
  let released := fst (snd (@SyncMultiFrameListener.release reference_library
                              lst (fm, World0))) in
  FrameMap.__dealloc__ released World0 = (Ret tt, World0).
Proof.
  intros fm lst released.
  apply (@X8_released_map_frees_nothing reference_library).
  intros k p. subst released. cbn.
  rewrite lookup_fmap. destruct (_ !! k); cbn; congruence.
Defined.

(** ** Waiting for frames *)

(** X9: [waitForNewFrame] without a map builds a map that does not own
    its entries and returns it filled by the library; given a map, it
    returns that map, its ownership flag kept, with the entries the
    library wrote over the ones it had.  The module frees nothing in
    either case, and the map built for the caller frees nothing when it
    is deallocated either: the frames stay the listener's until
    [release]. *)
Theorem X9_waitForNewFrame `{L : Libfreenect2} `{LL : ListenerLibrary}
    (self : SyncMultiFrameListener.t) (W : World) :
  (exists (fm : FrameMap.t) (W' : World),
      SyncMultiFrameListener.waitForNewFrame self None W = (Ret fm, W')
      /\ FrameMap.take_ownership fm = false
      /\ FrameMap.internal_frame_map fm
         = fst (lib_waitForNewFrame (SyncMultiFrameListener.ptr self) ∅
                  (frames W))
      /\ deleted W' = deleted W
      /\ forall W'' : World, FrameMap.__dealloc__ fm W'' = (Ret tt, W''))
  /\ (forall given : FrameMap.t,
         exists (fm : FrameMap.t) (W' : World),
           SyncMultiFrameListener.waitForNewFrame self (Some given) W
           = (Ret fm, W')
           /\ FrameMap.take_ownership fm = FrameMap.take_ownership given
           /\ FrameMap.internal_frame_map fm
              = fst (lib_waitForNewFrame (SyncMultiFrameListener.ptr self)
                       (FrameMap.internal_frame_map given) (frames W))
           /\ deleted W' = deleted W).
Proof.
  split.
  - unfold SyncMultiFrameListener.waitForNewFrame. cbn.
    destruct (lib_waitForNewFrame _ _ _) as [m' fr'].
    eexists _, _. repeat split.
  - intros given. unfold SyncMultiFrameListener.waitForNewFrame.
    destruct (lib_waitForNewFrame _ _ _) as [m' fr'].
    eexists _, _. repeat split.
Qed.

(** ** Construction of frames *)

(** X10: a call of the [Frame] constructor that raises leaves no trace:
    whether it fails on the conversion of [frame_type], on the assertion
    or on the conversion of a dimension after [take_ownership] was set,
    nothing has been allocated and the deallocation of the half-built
    object frees nothing. *)
Theorem X10_failed_construction_leaves_nothing `{L : Libfreenect2}
    (w h b ft : pyobj) (W W' : World) (r : res Frame.t) :
  Frame.new w h b ft W = (r, W') ->
  is_Ret r = false ->
  W' = W.
Proof.
  unfold Frame.new, bind, lift_res.
  destruct (as_c_int ft) as [n | |]; try by intros [= <- <-].
  destruct (is_None w) eqn:Hw, (is_None h) eqn:Hh, (is_None b) eqn:Hb;
    try (unfold Frame.__cinit__; rewrite Hw, Hh, Hb; cbn;
         by intros [= <- <-]).
  unfold Frame.__cinit__. rewrite Hw, Hh, Hb. cbn [negb andb orb].
  unfold bind, py_assert, ret, on_self, on_world, modify, lift_res.
  destruct (Frame_dim w) as [cw | |]; cbn; try by intros [= <- <-].
  destruct (Frame_dim h) as [ch | |]; cbn; try by intros [= <- <-].
  destruct (Frame_dim b) as [cb | |]; cbn; try by intros [= <- <-].
Qed.

Lemma X10_failed_construction_leaves_nothing_witness :
  snd (@Frame.new reference_library (PyInt 512) (PyStr "424") (PyInt 4)
         (PyInt (-1)) World0) = World0.
Proof.
  apply (@X10_failed_construction_leaves_nothing reference_library
           (PyInt 512) (PyStr "424") (PyInt 4) (PyInt (-1)) World0 _
           (Raise TypeError)); reflexivity.
Defined.

(** X11: a frame whose construction with its three dimensions returns
    reads them back: [width], [height] and [bytes_per_pixel] return the
    converted arguments and [frame_type] is the one given; where height x
    width x 4 bytes fit [npy_intp] (an empty dimension counted as 1), the
    uint8 view has shape height x width x 4. *)
Theorem X11_constructed_frame_reads_back `{L : Libfreenect2}
    (w h b ft : pyobj) (cw ch cb : N) (n : Z) (W W' : World) (f : Frame.t) :
  is_None w = false -> is_None h = false -> is_None b = false ->
  Frame_dim w = Ret cw -> Frame_dim h = Ret ch -> Frame_dim b = Ret cb ->
  as_c_int ft = Ret n ->
  Frame.new w h b ft W = (Ret f, W') ->
  Frame.frame_type f = n
  /\ Frame.get_width f W' = (Ret cw, W')
  /\ Frame.get_height f W' = (Ret ch, W')
  /\ Frame.get_bytes_per_pixel f W' = (Ret cb, W')
  /\ ((N.max 1 ch * N.max 1 cw * 4 < 2 ^ 63)%N ->
      exists d : addr,
        Frame.astype f (PyType np_uint8) W' =
        (Ret {| nd := 3; dims := [Z.of_N ch; Z.of_N cw; 4];
                typenum := NPY_UINT8; buffer := d |}, W')).
Proof.
  intros Hw Hh Hb Dw Dh Db Hft.
  unfold Frame.new, bind, lift_res. rewrite Hft.
  rewrite (cinit_owned w h b cw ch cb n W Hw Hh Hb Dw Dh Db).
  intros [= <- <-].
  split; [reflexivity |].
  unfold Frame.get_width, Frame.get_height, Frame.get_bytes_per_pixel,
    bind, deref. cbn. rewrite lookup_insert_eq. cbn.
  repeat split.
  intros Hfit. exists (N.succ (N.succ (brk W))).
  unfold Frame.astype. cbn [py_eq_type np_type_eqb negb andb].
  apply (uint8_data_view _ _
           {| width := cw; height := ch; bytes_per_pixel := cb;
              data := N.succ (N.succ (brk W)) |});
    cbn; [apply lookup_insert_eq | done].
Qed.

Lemma X11_constructed_frame_reads_back_witness :
  let f := {| Frame.ptr := 1%N; Frame.take_ownership := true;
              Frame.frame_type := 4 |} in
  let W' := snd (@Frame.new reference_library (PyInt 512) (PyInt 424)
                   (PyInt 4) (PyInt 4) World0) in
  Frame.frame_type f = 4
  /\ Frame.get_width f W' = (Ret 512%N, W')
  /\ Frame.get_height f W' = (Ret 424%N, W')
  /\ Frame.get_bytes_per_pixel f W' = (Ret 4%N, W')
  /\ exists d : addr,
       Frame.astype f (PyType np_uint8) W' =
       (Ret {| nd := 3; dims := [424; 512; 4];
               typenum := NPY_UINT8; buffer := d |}, W').
Proof.
  intros f W'.
  destruct (@X11_constructed_frame_reads_back reference_library
              (PyInt 512) (PyInt 424) (PyInt 4) (PyInt 4) 512%N 424%N 4%N 4
              World0 W' f)
    as (H1 & H2 & H3 & H4 & H5); try reflexivity.
  repeat (split; [assumption |]).
  apply H5. reflexivity.
Defined.

(** ** Registration *)

(** X12: [apply] goes through exactly when [rgb] and [depth] do not own
    their buffers and [undistored], [registered] and a given [bigdepth]
    do.  It then calls the library once, with the pointers of the five
    frames in the order of its arguments and the null pointer for a
    [bigdepth] that is not given; it frees and allocates nothing, and
    the frames change as the library changes them. *)
Theorem X12_apply_goes_through `{L : Libfreenect2}
    (self : Registration.t) (rgb depth undistored registered : Frame.t)
    (enable_filter : bool) (bigdepth : option Frame.t) (W : World) :
  let admissible :=
    negb (Frame.take_ownership rgb) && negb (Frame.take_ownership depth)
    && Frame.take_ownership undistored && Frame.take_ownership registered
    && match bigdepth with
       | None => true
       | Some b => Frame.take_ownership b
       end in
  let c :=
    Call_Registration_apply (Registration.ptr self) (Frame.ptr rgb)
      (Frame.ptr depth) (Frame.ptr undistored) (Frame.ptr registered)
      enable_filter
      (match bigdepth with None => NULL | Some b => Frame.ptr b end) in
  Registration.apply self rgb depth undistored registered enable_filter
    bigdepth W
  = if admissible
    then (Ret tt, {| frames := lib_apply c (frames W); brk := brk W;
                     deleted := deleted W; trace := c :: trace W |})
    else (Raise AssertionError, W).
Proof.
  unfold Registration.apply, bind, py_assert.
  destruct (Frame.take_ownership rgb); [reflexivity |].
  destruct (Frame.take_ownership depth); [reflexivity |].
  destruct (Frame.take_ownership undistored); [| reflexivity].
  destruct (Frame.take_ownership registered); [| reflexivity].
  destruct bigdepth as [b |]; [| reflexivity].
  destruct (Frame.take_ownership b); reflexivity.
Qed.

(** ** Opening a device *)

(** X13: an [openDevice] that raises has done nothing: no call reached
    the library and the pipeline object is as it was, not marked
    [owned_by_device], so that it stays the caller's to free.  It raises
    [ValueError] for a [name] that is neither an int nor a str nor
    bytes. *)
Theorem X13_failed_open_keeps_pipeline `{L : Libfreenect2}
    (fn : Freenect2.t) (name : pyobj) (po : option CpuPacketPipeline.t)
    (W : World) :
  (forall r po' W',
      Freenect2.openDevice fn name (po, W) = (r, (po', W')) ->
      is_Ret r = false -> po' = po /\ W' = W)
  /\ (isinstance_int name = false -> isinstance_str name = false ->
      isinstance_bytes name = false ->
      Freenect2.openDevice fn name (po, W) = (Raise ValueError, (po, W))).
Proof.
  split.
  - intros r po' W'. unfold Freenect2.openDevice, bind, lift_res.
    destruct (isinstance_int name).
    + destruct (as_c_int name); try by intros [= <- <- <-].
      unfold Freenect2.__openDevice__intidx, Freenect2.open_with.
      destruct po; by intros [= <- <- <-].
    + destruct (isinstance_str name || isinstance_bytes name);
        [| by intros [= <- <- <-]].
      destruct (as_std_string name); try by intros [= <- <- <-].
      unfold Freenect2.__openDevice__stridx, Freenect2.open_with.
      destruct po; by intros [= <- <- <-].
  - intros Hi Hs Hb. unfold Freenect2.openDevice. by rewrite Hi, Hs, Hb.
Qed.

Lemma X13_failed_open_keeps_pipeline_witness :
  let fn := {| Freenect2.ptr := 9000%N |} in
  let p := {| CpuPacketPipeline.pipeline_ptr_alias := 1%N;
              CpuPacketPipeline.owned_by_device := false;
              CpuPacketPipeline.pipeline := 1%N |} in
  (fst (snd (@Freenect2.openDevice reference_library fn (PyInt (2 ^ 40))
               (Some p, World0))) = Some p
   /\ snd (snd (@Freenect2.openDevice reference_library fn (PyInt (2 ^ 40))
                  (Some p, World0))) = World0)
  /\ @Freenect2.openDevice reference_library fn (PyOther "list")
       (Some p, World0) = (Raise ValueError, (Some p, World0)).
Proof.
  intros fn p.
  destruct (@X13_failed_open_keeps_pipeline reference_library fn
              (PyInt (2 ^ 40)) (Some p) World0) as [H1 _].
  destruct (@X13_failed_open_keeps_pipeline reference_library fn
              (PyOther "list") (Some p) World0) as [_ H2].
  split.
  - apply (H1 (Raise OverflowError)); reflexivity.
  - apply H2; reflexivity.
Defined.

(** ** Pipelines and frames in the runtime *)

Section MoreOwnership.
Context `{L : Libfreenect2}.
Import Runtime.

Lemma owner_freed_once (h : Heap) (r : nat) (o : obj) (a : addr)
    (ops : list op) :
  Inv h -> objs h !! r = Some o -> owns o = Some a ->
  count_occ N.eq_dec (deleted (world h)) a = 0%nat
  /\ count_occ N.eq_dec (deleted (world (run ops (step (Dealloc r) h)))) a
     = 1%nat.
Proof.
  intros Hinv Hr Ho. split.
  - apply count_occ_not_In. rewrite <- list_elem_of_In.
    by apply (inv_owned h Hinv r _ _ Hr Ho).
  - apply count_occ_once.
    + apply run_Inv. eapply effect_Inv; [exact Hinv | apply step_effect].
    + apply run_deleted. cbn [step]. rewrite Hr. cbn [world].
      rewrite dealloc_obj_owns, Ho. cbn. by apply elem_of_cons; left.
Qed.

End MoreOwnership.

(** X14: a pipeline that was never handed to a device is the caller's:
    in every program, while its object lives and is not marked
    [owned_by_device] its native pipeline has not been freed, and from
    the deallocation of the object on it has been freed exactly once. *)
Theorem X14_unopened_pipeline_freed_once `{L : Libfreenect2}
    (ops ops' : list Runtime.op) (r : nat) (p : CpuPacketPipeline.t) :
  Runtime.pipeline_at (Runtime.run ops Runtime.Heap0) r = Some p ->
  CpuPacketPipeline.owned_by_device p = false ->
  CpuPacketPipeline.pipeline p <> NULL ->
  count_occ N.eq_dec
    (deleted (Runtime.world (Runtime.run ops Runtime.Heap0)))
    (CpuPacketPipeline.pipeline p) = 0%nat
  /\ count_occ N.eq_dec
       (deleted
          (Runtime.world
             (Runtime.run ops'
                (Runtime.step (Runtime.Dealloc r)
                   (Runtime.run ops Runtime.Heap0)))))
       (CpuPacketPipeline.pipeline p) = 1%nat.
Proof.
  intros Hp%pipeline_at_Some Hflag Hnn.
  apply (owner_freed_once _ r (Runtime.PipelineObj p)).
  - apply run_Inv, Inv_Heap0.
  - exact Hp.
  - cbn. rewrite Hflag. apply N.eqb_neq in Hnn. by rewrite Hnn.
Qed.

Lemma X14_unopened_pipeline_freed_once_witness :
  let p := {| CpuPacketPipeline.pipeline_ptr_alias := 1%N;
              CpuPacketPipeline.owned_by_device := false;
              CpuPacketPipeline.pipeline := 1%N |} in
  let fn := {| Freenect2.ptr := 9000%N |} in
  let before := [Runtime.New_CpuPacketPipeline;
                 Runtime.OpenDevice fn (PyOther "list") (Some 0%nat)] in
  let after := [Runtime.New_CpuPacketPipeline; Runtime.Dealloc 1] in
  count_occ N.eq_dec
    (deleted
       (Runtime.world
          (@Runtime.run reference_library after
             (@Runtime.step reference_library (Runtime.Dealloc 0)
                (@Runtime.run reference_library before Runtime.Heap0)))))
    1%N = 1%nat.
Proof.
  intros p fn before after.
  apply (@X14_unopened_pipeline_freed_once reference_library before after
           0%nat p); [reflexivity | reflexivity | discriminate].
Defined.

(** X15: in every program two live frames that own their buffers own
    different buffers: no native frame has two owners, so freeing one
    frame never frees the buffer of another. *)
Theorem X15_owned_buffers_are_distinct `{L : Libfreenect2}
    (ops : list Runtime.op) (r1 r2 : nat) (f1 f2 : Frame.t) :
  Runtime.frame_at (Runtime.run ops Runtime.Heap0) r1 = Some f1 ->
  Runtime.frame_at (Runtime.run ops Runtime.Heap0) r2 = Some f2 ->
  Frame.take_ownership f1 = true -> Frame.take_ownership f2 = true ->
  Frame.ptr f1 <> NULL ->
  r1 <> r2 ->
  Frame.ptr f1 <> Frame.ptr f2.
Proof.
  intros H1%frame_at_Some H2%frame_at_Some Ht1 Ht2 Hnn Hne Heq.
  pose proof (run_Inv ops _ Inv_Heap0) as Hinv.
  apply Hne.
  apply (inv_unique _ Hinv r1 r2 _ _ (Frame.ptr f1) H1 H2).
  - cbn. rewrite Ht1. apply N.eqb_neq in Hnn. by rewrite Hnn.
  - cbn. rewrite Ht2, <- Heq. apply N.eqb_neq in Hnn. by rewrite Hnn.
Qed.

Lemma X15_owned_buffers_are_distinct_witness :
  let mk := Runtime.New_Frame (PyInt 512) (PyInt 424) (PyInt 4)
              (PyInt (-1)) in
  let f p := {| Frame.ptr := p; Frame.take_ownership := true;
                Frame.frame_type := -1 |} in
  Frame.ptr (f 1%N) <> Frame.ptr (f 3%N).
Proof.
  intros mk f.
  apply (@X15_owned_buffers_are_distinct reference_library [mk; mk]
           0%nat 1%nat (f 1%N) (f 3%N)); try reflexivity; discriminate.
Defined.

(** ** Life of a listener *)

(** X16: a listener is built around a non-null pointer which is also its
    [listener_ptr_alias]; a [frame_types] that is no C [unsigned int]
    makes the constructor raise with nothing allocated.  A device does
    not keep a listener alive: [setColorFrameListener] hands the
    listener's pointer to the library and returns, and the deallocation
    of the listener that follows frees that same pointer. *)
Theorem X16_listener_life `{L : Libfreenect2}
    (frame_types : pyobj) (d : Freenect2Device.t) (W : World) :
  (forall (l : SyncMultiFrameListener.t) (W1 : World),
      SyncMultiFrameListener.__cinit__ frame_types W = (Ret l, W1) ->
      SyncMultiFrameListener.listener_ptr_alias l
      = SyncMultiFrameListener.ptr l
      /\ SyncMultiFrameListener.ptr l <> NULL
      /\ deleted W1 = deleted W
      /\ (let* _ := Freenect2Device.setColorFrameListener d l in
          SyncMultiFrameListener.__dealloc__ l) W1
         = (Ret tt,
            {| frames := delete (SyncMultiFrameListener.ptr l) (frames W1);
               brk := brk W1;
               deleted := SyncMultiFrameListener.ptr l :: deleted W1;
               trace := Call_setColorFrameListener (Freenect2Device.ptr d)
                          (SyncMultiFrameListener.ptr l) :: trace W1 |}))
  /\ (is_Ret (as_c_uint frame_types) = false ->
      snd (SyncMultiFrameListener.__cinit__ frame_types W) = W
      /\ is_Ret (fst (SyncMultiFrameListener.__cinit__ frame_types W))
         = false).
Proof.
  split.
  - intros l W1. unfold SyncMultiFrameListener.__cinit__, bind, lift_res.
    destruct (as_c_uint frame_types); try discriminate.
    cbn. intros [= <- <-]. cbn.
    assert (Hnn : N.succ (brk W) <> NULL) by (unfold NULL; lia).
    repeat split; [exact Hnn |].
    unfold SyncMultiFrameListener.__dealloc__. cbn.
    apply N.eqb_neq in Hnn. by rewrite Hnn.
  - intros Hc. unfold SyncMultiFrameListener.__cinit__, bind, lift_res.
    by destruct (as_c_uint frame_types).
Qed.

Lemma X16_listener_life_witness :
  let d := {| Freenect2Device.ptr := 4096%N |} in
  let l := {| SyncMultiFrameListener.ptr := 1%N;
              SyncMultiFrameListener.listener_ptr_alias := 1%N |} in
  let W1 := {| frames := ∅; brk := 1%N; deleted := []; trace := [] |} in
  (let* _ := Freenect2Device.setColorFrameListener d l in
   SyncMultiFrameListener.__dealloc__ l) W1
  = (Ret tt,
     {| frames := delete 1%N ∅; brk := 1%N; deleted := [1%N];
        trace := [Call_setColorFrameListener 4096%N 1%N] |})
  /\ snd (@SyncMultiFrameListener.__cinit__ reference_library (PyInt (-1))
            World0) = World0.
Proof.
  intros d l W1.
  destruct (@X16_listener_life reference_library
              (@SyncMultiFrameListener.default_frame_types reference_library)
              d World0) as [H1 _].
  destruct (@X16_listener_life reference_library (PyInt (-1)) d World0)
    as [_ H2].
  split.
  - apply (H1 l W1). reflexivity.
  - apply H2. reflexivity.
Defined.

(** A float for [frame_types] is truncated by the conversion:
    [SyncMultiFrameListener(7.5)] builds a listener, while a float below
    zero after truncation overflows. *)
Example listener_of_float :
  @SyncMultiFrameListener.__cinit__ reference_library (PyNumber (Ret 7))
    World0
  = (Ret {| SyncMultiFrameListener.ptr := 1%N;
            SyncMultiFrameListener.listener_ptr_alias := 1%N |},
     {| frames := ∅; brk := 1%N; deleted := []; trace := [] |})
  /\ @SyncMultiFrameListener.__cinit__ reference_library
       (PyNumber (Ret (-1))) World0
     = (Raise OverflowError, World0).
Proof. split; reflexivity. Qed.

(** ** From the listener to a frame *)

(** X17: what the library delivers is what the caller reads: after
    [waitForNewFrame] without a map, the lookup of a recognised key in
    the map returned gives a frame around the pointer the library wrote
    for that channel (null if it wrote none), which does not own it; the
    module has freed nothing on the way. *)
Theorem X17_delivered_frames_are_looked_up
    `{L : Libfreenect2} `{LL : ListenerLibrary}
    (self : SyncMultiFrameListener.t) (W : World) (key intkey : pyobj)
    (ft : LibFreenect2FrameType) :
  FrameMap.normalise key = Ret (ft, intkey) ->
  exists (fm fm' : FrameMap.t) (W' : World) (f : Frame.t),
    SyncMultiFrameListener.waitForNewFrame self None W = (Ret fm, W')
    /\ FrameMap.__getitem__ key (fm, W') = (Ret f, (fm', W'))
    /\ Frame.ptr f
       = default NULL
           (fst (lib_waitForNewFrame (SyncMultiFrameListener.ptr self) ∅
                   (frames W)) !! ft)
    /\ Frame.take_ownership f = false
    /\ deleted W' = deleted W.
Proof.
  intros Hk.
  destruct (normalise_intkey _ _ _ Hk) as (n & Hn & _).
  unfold SyncMultiFrameListener.waitForNewFrame. cbn.
  destruct (lib_waitForNewFrame _ _ _) as [m' fr'].
  eexists _, _, _, _.
  split; [reflexivity |].
  split; [apply (getitem_normalised _ _ _ _ _ _ Hk Hn) |].
  unfold looked_up. cbn.
  destruct (m' !! ft); repeat split.
Qed.

Lemma X17_delivered_frames_are_looked_up_witness :
  let lst := {| SyncMultiFrameListener.ptr := 100%N;
                SyncMultiFrameListener.listener_ptr_alias := 100%N |} in
  exists (fm fm' : FrameMap.t) (W' : World) (f : Frame.t),
    @SyncMultiFrameListener.waitForNewFrame reference_listener lst None
      World0 = (Ret fm, W')
    /\ @FrameMap.__getitem__ reference_library (PyStr "Depth") (fm, W')
       = (Ret f, (fm', W'))
    /\ Frame.ptr f = default NULL (fst (deliver_frames ∅ ∅)
                                     !! libfreenect2_Depth)
    /\ Frame.take_ownership f = false
    /\ deleted W' = deleted World0.
Proof.
  intros lst.
  apply (@X17_delivered_frames_are_looked_up reference_library
           reference_listener lst World0 (PyStr "Depth") (PyEnum Depth)
           libfreenect2_Depth).
  reflexivity.
Defined.
